(** * Redshift CLI render front-end: command construction, presets, process runner

    A shallow embedding of [src/cinema4d/redshift_cli_render.py]
    ([RenderConfig], [guess_c4d_command], [build_command], [quote_win] and the
    worker of [run_command_async]), together with the parts of the Python
    runtime and standard library those functions call: [str.strip],
    [str.isspace], [round], [float * int], [str(int)], [os.path.join]
    ([posixpath] and [ntpath]), [shlex.split] and [shlex.quote], after the
    library sources of CPython 3.11.

    Conventions.
    - A Python [str] is a [string]; each [ascii] stands for the code point
      with the same number (U+0000 .. U+00FF).
    - A Python [int] is a [Z]; a Python [float] is a binary64 [float].
      [str] of an int raises beyond the interpreter's limit on the digits
      of a numeral, which is at its default, 4300: the program never sets
      it. The limits of memory are not modelled.
    - A call that may raise returns a [result]; [Raise e] is the exception
      leaving the function.
    - [sys.platform] and [os.path.exists] are the environment; they are
      section variables of the definitions that read them.
    - The output of a started process ends, with the end of the stream or
      with an exception raised while it is read; the scheduling of the
      worker's thread is not modelled.
    - A numeric variable of the form holds what its [get()] does: the number
      read, or the [TclError] raised for a text that is no number. *)

From Stdlib Require Import ZArith String Ascii List Bool Floats.
From stdpp Require Import base option strings list gmap pretty.

Local Open Scope string_scope.
Local Open Scope list_scope.
Local Open Scope Z_scope.

(** ** Exceptions and results *)

Inductive exn : Type :=
  | ValueError (msg : string)
  | OverflowError (msg : string)
  | TclError (msg : string).

Inductive result (A : Type) : Type :=
  | Ok (a : A)
  | Raise (e : exn).

Arguments Ok {A} a.
Arguments Raise {A} e.

Global Instance result_ret : MRet result := fun A a => Ok a.

Global Instance result_bind : MBind result := fun A B k r =>
  match r with
  | Ok a => k a
  | Raise e => Raise e
  end.

(** ** Python built-ins *)

Module Py.

(** [bool(s)] for a str: the empty string is falsy. *)
Definition truthy (s : string) : bool :=
  match s with
  | EmptyString => false
  | String _ _ => true
  end.

(** [x or default] for strs. *)
Definition or_else (s default : string) : string :=
  if truthy s then s else default.

(** [sys.get_int_max_str_digits()] as the interpreter starts. *)
Definition int_max_str_digits : Z := 4300.

(** The decimal numeral of an int, ["-"] in front of a negative one. *)
Definition decimal (n : Z) : string := pretty n.

(** The least int with more digits than the limit, [10 ^ 4300], as a
    numeral. *)
Definition str_limit : Z := Eval vm_compute in 10 ^ 4300.

(** An int whose numeral has no more digits than the limit. *)
Definition printable (n : Z) : bool := Z.abs n <? str_limit.

(** The exception of an int with too many digits to be turned into a str. *)
Definition digits_error : exn :=
  ValueError ("Exceeds the limit (4300 digits) for integer string conversion; "
              +:+ "use sys.set_int_max_str_digits() to increase the limit").

(** [str(int(n))] for an int [n]: its decimal numeral, and [ValueError] for
    an int of more digits than the limit. *)
Definition str (n : Z) : result string :=
  if printable n then Ok (decimal n) else Raise digits_error.

(** [c.isspace()] for a single character below U+0100. *)
Definition isspace (c : ascii) : bool :=
  let n := N_of_ascii c in
  ((9 <=? n) && (n <=? 13) || (28 <=? n) && (n <=? 32) || (n =? 133) || (n =? 160))%N.

(** A character that [strip] keeps. *)
Definition nonspace (c : ascii) : bool := negb (isspace c).

Fixpoint lstrip (s : string) : string :=
  match s with
  | String c s' => if isspace c then lstrip s' else s
  | EmptyString => EmptyString
  end.

Definition rstrip (s : string) : string := String.rev (lstrip (String.rev s)).

(** [s.strip()] *)
Definition strip (s : string) : string := rstrip (lstrip s).

(** [s.startswith(p)] *)
Definition startswith (s p : string) : bool := String.prefix p s.

(** [s.endswith(p)] *)
Definition endswith (s p : string) : bool := String.prefix (String.rev p) (String.rev s).

(** [c in s] for a single character [c]. *)
Fixpoint char_in (c : ascii) (s : string) : bool :=
  match s with
  | EmptyString => false
  | String d s' => Ascii.eqb c d || char_in c s'
  end.

(** [any(p(c) for c in s)] *)
Fixpoint any (p : ascii -> bool) (s : string) : bool :=
  match s with
  | EmptyString => false
  | String c s' => p c || any p s'
  end.

(** [s[:n]] and [s[n:]] for [0 <= n]. *)
Fixpoint take (n : nat) (s : string) : string :=
  match n, s with
  | S n', String c s' => String c (take n' s')
  | _, _ => EmptyString
  end.

Fixpoint drop (n : nat) (s : string) : string :=
  match n, s with
  | S n', String _ s' => drop n' s'
  | _, _ => s
  end.

(** [s.replace(a, t)] for a single character [a]. *)
Fixpoint replace (a : ascii) (t : string) (s : string) : string :=
  match s with
  | EmptyString => EmptyString
  | String c s' => (if Ascii.eqb c a then t else String c EmptyString) +:+ replace a t s'
  end.

(** [sep.join(l)] *)
Definition str_join (sep : string) (l : list string) : string := String.concat sep l.

(** [float(n)] for an int: the nearest binary64, ties to even;
    [OverflowError] beyond the largest finite one. *)
Definition float_of_int (n : Z) : result float :=
  match binary_normalize prec emax n 0 false with
  | S754_infinity _ => Raise (OverflowError "int too large to convert to float")
  | sf => Ok (SF2Prim sf)
  end.

(** [x * n] for a float [x] and an int [n]: [n] is converted first. *)
Definition float_mul_int (x : float) (n : Z) : result float :=
  y ← float_of_int n; Ok (PrimFloat.mul x y).

(** The integer nearest to [m * 2^e], ties to the even one. *)
Definition nearest_even (m : positive) (e : Z) : Z :=
  if 0 <=? e then Z.pos m * 2 ^ e
  else
    let d := 2 ^ (- e) in
    let q := Z.pos m / d in
    let r := Z.pos m mod d in
    match 2 * r ?= d with
    | Lt => q
    | Gt => q + 1
    | Eq => if Z.even q then q else q + 1
    end.

(** [round(x)] for a float, no [ndigits]: an int, ties to even;
    NaN and the infinities raise. *)
Definition round (x : float) : result Z :=
  match Prim2SF x with
  | S754_nan => Raise (ValueError "cannot convert float NaN to integer")
  | S754_infinity _ => Raise (OverflowError "cannot convert float infinity to integer")
  | S754_zero _ => Ok 0
  | S754_finite s m e => Ok (if s then - nearest_even m e else nearest_even m e)
  end.

(** [math.isfinite(x)]: neither NaN nor an infinity. *)
Definition isfinite (x : float) : bool :=
  match Prim2SF x with
  | S754_zero _ | S754_finite _ _ _ => true
  | S754_nan | S754_infinity _ => false
  end.

End Py.

Arguments Py.printable : simpl never.

(** The double quote character, as a one-character str. *)
Definition dquote : string := String "034"%char EmptyString.

(** ** [posixpath] and [ntpath]: [os.path.join] *)

Module posixpath.

(** [posixpath.join(a, b)] *)
Definition join (a b : string) : string :=
  if Py.startswith b "/" then b
  else if negb (Py.truthy a) || Py.endswith a "/" then a +:+ b
  else a +:+ "/" +:+ b.

End posixpath.

Module ntpath.

Definition sep : string := "\".
Definition seps : string := "\/".
Definition colon : string := ":".
Definition unc_prefix : string := "\\?\UNC\".

(** [s.find(c, start)] for a single character [c]; [None] is Python's -1. *)
Fixpoint find (c : ascii) (start : nat) (s : string) : option nat :=
  match s with
  | EmptyString => None
  | String d s' =>
      match start with
      | O => if Ascii.eqb c d then Some O else S <$> find c O s'
      | S start' => S <$> find c start' s'
      end
  end.

(** [c.upper()] on the characters whose upper case is an ASCII character.
    [str.upper] also changes characters above U+007F, never into a
    character of [unc_prefix], the only string an upper-cased one is
    compared with. *)
Definition upper_char (c : ascii) : ascii :=
  let n := N_of_ascii c in
  if ((97 <=? n) && (n <=? 122))%N then ascii_of_N (n - 32) else c.

Fixpoint upper (s : string) : string :=
  match s with
  | EmptyString => EmptyString
  | String c s' => String (upper_char c) (upper s')
  end.

(** [c.lower()] for a character below U+0100. *)
Definition lower_char (c : ascii) : ascii :=
  let n := N_of_ascii c in
  if ((65 <=? n) && (n <=? 90) || (192 <=? n) && (n <=? 222) && negb (n =? 215))%N
  then ascii_of_N (n + 32) else c.

Fixpoint lower (s : string) : string :=
  match s with
  | EmptyString => EmptyString
  | String c s' => String (lower_char c) (lower s')
  end.

(** [s[:1]] is in [seps]: the str is not empty and starts with a separator. *)
Definition starts_with_sep (s : string) : bool :=
  match s with
  | String c _ => Py.char_in c seps
  | EmptyString => false
  end.

(** [s[-1]] is in [seps], for a non-empty [s]. *)
Definition ends_with_sep (s : string) : bool := starts_with_sep (String.rev s).

(** [ntpath.splitdrive(p)] *)
Definition splitdrive (p : string) : string * string :=
  if (2 <=? String.length p)%nat then
    let normp := Py.replace "/" sep p in
    if String.eqb (Py.take 2 normp) (sep +:+ sep) then
      let start := if String.eqb (upper (Py.take 8 normp)) unc_prefix then 8%nat else 2%nat in
      match find "\" start normp with
      | None => (p, EmptyString)
      | Some index =>
          match find "\" (index + 1) normp with
          | None => (p, EmptyString)
          | Some index2 => (Py.take index2 p, Py.drop index2 p)
          end
      end
    else if String.eqb (Py.take 1 (Py.drop 1 normp)) colon then (Py.take 2 p, Py.drop 2 p)
    else (EmptyString, p)
  else (EmptyString, p).

(** One turn of the loop of [ntpath.join] over the further components. *)
Definition join_step (acc : string * string) (p : string) : string * string :=
  let '(result_drive, result_path) := acc in
  let '(p_drive, p_path) := splitdrive p in
  let relative (result_drive : string) :=
    let result_path :=
      if Py.truthy result_path && negb (ends_with_sep result_path)
      then result_path +:+ sep else result_path in
    (result_drive, result_path +:+ p_path) in
  if starts_with_sep p_path then
    ((if Py.truthy p_drive || negb (Py.truthy result_drive) then p_drive else result_drive),
     p_path)
  else if Py.truthy p_drive && negb (String.eqb p_drive result_drive) then
    if negb (String.eqb (lower p_drive) (lower result_drive)) then (p_drive, p_path)
    else relative p_drive
  else relative result_drive.

(** [ntpath.join(path, *paths)] *)
Definition join_all (path : string) (paths : list string) : string :=
  let '(result_drive, result_path) := fold_left join_step paths (splitdrive path) in
  if Py.truthy result_path && negb (starts_with_sep result_path)
     && Py.truthy result_drive && negb (Py.endswith result_drive colon)
  then result_drive +:+ sep +:+ result_path
  else result_drive +:+ result_path.

(** [ntpath.join(path, p)] *)
Definition join (path p : string) : string := join_all path [p].

End ntpath.

(** ** [shlex]: word splitting and quoting *)

Module shlex.

(** The values [self.state] takes while characters are read; the state
    [None] (end of input reached) is the empty input of [read_tokens]. *)
Inductive lexstate : Type :=
  | in_space              (* ' ' *)
  | in_word               (* 'a' *)
  | in_quote (q : ascii)  (* a character of self.quotes *)
  | in_escape.            (* the character of self.escape *)

Definition whitespace : string := String " " (String "009" (String "013" (String "010" EmptyString))).
Definition quotes : string := "'" +:+ dquote.
Definition escape : string := "\".
Definition escapedquotes : string := dquote.

(** [nextchar in self.wordchars]: ASCII letters, digits, [_], and in POSIX
    mode the letters of U+00C0 .. U+00FF. *)
Definition in_wordchars (posix : bool) (c : ascii) : bool :=
  let n := N_of_ascii c in
  ((97 <=? n) && (n <=? 122) || (65 <=? n) && (n <=? 90) || (48 <=? n) && (n <=? 57)
   || (n =? 95)
   || posix && (192 <=? n) && negb (n =? 215) && negb (n =? 247))%N.

(** What [list(lex)] does with the value a [break] of [read_token] returns:
    [result] is [None] in POSIX mode for an unquoted empty token; a result
    equal to [self.eof] ([None] in POSIX mode, [''] otherwise) stops the
    iteration, any other is the next token. [more] reads the rest. *)
Definition emit (posix quoted : bool) (token : string) (more : result (list string))
  : result (list string) :=
  let at_eof :=
    if posix then negb quoted && negb (Py.truthy token) else negb (Py.truthy token) in
  if at_eof then Ok [] else toks ← more; Ok (token :: toks).

(** The loop of [read_token], run by [list(lex)] until the lexer returns
    [self.eof]; [whitespace_split] is true, [commenters] and
    [punctuation_chars] are empty, as [shlex.split] sets them. [state] is
    [self.state]; [escapedstate], [quoted] and [token] are the variables of
    the same names, reset at each token. *)
Fixpoint read_tokens (posix : bool) (state escapedstate : lexstate) (quoted : bool)
    (token : string) (instream : list ascii) {struct instream} : result (list string) :=
  let next_token rest := read_tokens posix in_space in_space false EmptyString rest in
  match instream with
  | [] =>
      match state with
      | in_space | in_word => emit posix quoted token (Ok [])
      | in_quote _ => Raise (ValueError "No closing quotation")
      | in_escape => Raise (ValueError "No escaped character")
      end
  | nextchar :: rest =>
      match state with
      | in_space =>
          if Py.char_in nextchar whitespace then
            if Py.truthy token || posix && quoted
            then emit posix quoted token (next_token rest)
            else read_tokens posix in_space escapedstate quoted token rest
          else if posix && Py.char_in nextchar escape then
            read_tokens posix in_escape in_word quoted token rest
          else if in_wordchars posix nextchar then
            read_tokens posix in_word escapedstate quoted (String nextchar EmptyString) rest
          else if Py.char_in nextchar quotes then
            read_tokens posix (in_quote nextchar) escapedstate quoted
              (if posix then token else String nextchar EmptyString) rest
          else
            read_tokens posix in_word escapedstate quoted (String nextchar EmptyString) rest
      | in_quote q =>
          if Ascii.eqb nextchar q then
            if posix then read_tokens posix in_word escapedstate true token rest
            else emit posix true (token +:+ String nextchar EmptyString) (next_token rest)
          else if posix && Py.char_in nextchar escape && Py.char_in q escapedquotes then
            read_tokens posix in_escape (in_quote q) true token rest
          else
            read_tokens posix (in_quote q) escapedstate true (token +:+ String nextchar EmptyString) rest
      | in_escape =>
          let token :=
            match escapedstate with
            | in_quote q =>
                if negb (Py.char_in nextchar escape) && negb (Ascii.eqb nextchar q)
                then token +:+ escape else token
            | _ => token
            end in
          read_tokens posix escapedstate escapedstate quoted
            (token +:+ String nextchar EmptyString) rest
      | in_word =>
          if Py.char_in nextchar whitespace then
            if Py.truthy token || posix && quoted
            then emit posix quoted token (next_token rest)
            else read_tokens posix in_space escapedstate quoted token rest
          else if posix && Py.char_in nextchar quotes then
            read_tokens posix (in_quote nextchar) escapedstate quoted token rest
          else if posix && Py.char_in nextchar escape then
            read_tokens posix in_escape in_word quoted token rest
          else
            read_tokens posix in_word escapedstate quoted (token +:+ String nextchar EmptyString) rest
      end
  end.

(** A character that opens neither a quotation nor an escape. *)
Definition plain_char (c : ascii) : bool :=
  negb (Py.char_in c quotes) && negb (Py.char_in c escape).

(** [shlex.split(s, posix=posix)] *)
Definition split (s : string) (posix : bool) : result (list string) :=
  read_tokens posix in_space in_space false EmptyString (list_ascii_of_string s).

(** [_find_unsafe(s) is None]: every character is one of
    [a-zA-Z0-9_@%+=:,./-]. *)
Definition safe_char (c : ascii) : bool :=
  let n := N_of_ascii c in
  ((97 <=? n) && (n <=? 122) || (65 <=? n) && (n <=? 90) || (48 <=? n) && (n <=? 57))%N
  || Py.char_in c "_@%+=:,./-".

(** [shlex.quote(s)] *)
Definition quote (s : string) : string :=
  if negb (Py.truthy s) then "''"
  else if negb (Py.any (fun c => negb (safe_char c)) s) then s
  else "'" +:+ Py.replace "'" ("'" +:+ dquote +:+ "'" +:+ dquote +:+ "'") s +:+ "'".

End shlex.

(** ** The program *)

Definition APP_TITLE : string := "REDSHIFT CLI BUT IN A GUI".
Definition DEFAULT_FPS : Z := 25.
Definition DEFAULT_FORMAT : string := "png".
Definition PRESET_EXT : string := ".c4drs.json".

(** The attributes of a [RenderConfig] instance, each with the type
    [__init__] and [sync_cfg] give it. *)
Record RenderConfig : Type := {
  c4d_cmd : string;
  scene_path : string;
  output_dir : string;
  base_name : string;
  format : string;
  override_format : bool;
  override_res : bool;
  res_w : Z;
  res_h : Z;
  use_duration : bool;
  duration_seconds : float;
  fps : Z;
  start_frame : Z;
  end_frame : Z;
  renderer : string;
  force_renderer : bool;
  threads : Z;
  extra_args : string;
}.

(** A value of the flat key-value form of a preset. *)
Inductive value : Type :=
  | VStr (s : string)
  | VBool (b : bool)
  | VInt (n : Z)
  | VFloat (x : float).

(** [self.__dict__] of an instance. *)
Definition vars (cfg : RenderConfig) : gmap string value :=
  list_to_map [
    ("c4d_cmd", VStr cfg.(c4d_cmd));
    ("scene_path", VStr cfg.(scene_path));
    ("output_dir", VStr cfg.(output_dir));
    ("base_name", VStr cfg.(base_name));
    ("format", VStr cfg.(format));
    ("override_format", VBool cfg.(override_format));
    ("override_res", VBool cfg.(override_res));
    ("res_w", VInt cfg.(res_w));
    ("res_h", VInt cfg.(res_h));
    ("use_duration", VBool cfg.(use_duration));
    ("duration_seconds", VFloat cfg.(duration_seconds));
    ("fps", VInt cfg.(fps));
    ("start_frame", VInt cfg.(start_frame));
    ("end_frame", VInt cfg.(end_frame));
    ("renderer", VStr cfg.(renderer));
    ("force_renderer", VBool cfg.(force_renderer));
    ("threads", VInt cfg.(threads));
    ("extra_args", VStr cfg.(extra_args))
  ].

Definition get_str (d : gmap string value) (k : string) : option string :=
  match d !! k with Some (VStr s) => Some s | _ => None end.

Definition get_bool (d : gmap string value) (k : string) : option bool :=
  match d !! k with Some (VBool b) => Some b | _ => None end.

Definition get_int (d : gmap string value) (k : string) : option Z :=
  match d !! k with Some (VInt n) => Some n | _ => None end.

Definition get_float (d : gmap string value) (k : string) : option float :=
  match d !! k with Some (VFloat x) => Some x | _ => None end.

(** The instance whose [__dict__] is [d]. [None] when an attribute of the
    record is missing from [d] or holds a value of another type than the
    record gives it: such an instance is outside this model. Further keys of
    [d] are attributes no function of the program reads. *)
Definition of_vars (d : gmap string value) : option RenderConfig :=
  c4d_cmd ← get_str d "c4d_cmd";
  scene_path ← get_str d "scene_path";
  output_dir ← get_str d "output_dir";
  base_name ← get_str d "base_name";
  format ← get_str d "format";
  override_format ← get_bool d "override_format";
  override_res ← get_bool d "override_res";
  res_w ← get_int d "res_w";
  res_h ← get_int d "res_h";
  use_duration ← get_bool d "use_duration";
  duration_seconds ← get_float d "duration_seconds";
  fps ← get_int d "fps";
  start_frame ← get_int d "start_frame";
  end_frame ← get_int d "end_frame";
  renderer ← get_str d "renderer";
  force_renderer ← get_bool d "force_renderer";
  threads ← get_int d "threads";
  extra_args ← get_str d "extra_args";
  Some {|
    c4d_cmd := c4d_cmd; scene_path := scene_path; output_dir := output_dir;
    base_name := base_name; format := format; override_format := override_format;
    override_res := override_res; res_w := res_w; res_h := res_h;
    use_duration := use_duration; duration_seconds := duration_seconds; fps := fps;
    start_frame := start_frame; end_frame := end_frame; renderer := renderer;
    force_renderer := force_renderer; threads := threads; extra_args := extra_args
  |}.

(** [quote_win(s)] *)
Definition quote_win (s : string) : string :=
  if Py.any Py.isspace s || Py.char_in "\" s then dquote +:+ s +:+ dquote else s.

Section Environment.

(** [sys.platform] *)
Variable sys_platform : string.

(** [os.path.exists] *)
Variable os_path_exists : string -> bool.

(** [sys.platform.startswith("win")]. The only such platform of CPython is
    ["win32"], and it is the one where [os.path] is [ntpath]; on every other
    [os.path] is [posixpath]. *)
Definition on_windows : bool := Py.startswith sys_platform "win".

Definition os_path_join (a b : string) : string :=
  if on_windows then ntpath.join a b else posixpath.join a b.

Definition guess_c4d_command : string :=
  let candidates := [] in
  let candidates :=
    if on_windows then
      candidates ++ [
        "C:\Program Files\Maxon Cinema 4D 2025\Commandline.exe";
        "C:\Program Files\Maxon Cinema 4D 2024\Commandline.exe";
        "C:\Program Files\Maxon Cinema 4D R26\Commandline.exe"
      ]
    else if String.eqb sys_platform "darwin" then
      candidates ++ [
        "/Applications/Maxon Cinema 4D 2025/Commandline.app/Contents/MacOS/Commandline";
        "/Applications/Maxon Cinema 4D 2024/Commandline.app/Contents/MacOS/Commandline";
        "/Applications/Maxon Cinema 4D R26/Commandline.app/Contents/MacOS/Commandline"
      ]
    else candidates in
  match List.find os_path_exists candidates with
  | Some p => p
  | None => EmptyString
  end.

(** [RenderConfig()] *)
Definition RenderConfig_init : RenderConfig := {|
  c4d_cmd := guess_c4d_command;
  scene_path := EmptyString;
  output_dir := EmptyString;
  base_name := "frame_";
  format := DEFAULT_FORMAT;
  override_format := true;
  override_res := false;
  res_w := 1920;
  res_h := 1080;
  use_duration := true;
  duration_seconds := 15.0%float;
  fps := DEFAULT_FPS;
  start_frame := 0;
  end_frame := 100;
  renderer := "Redshift";
  force_renderer := true;
  threads := 0;
  extra_args := EmptyString
|}.

(** [RenderConfig.to_dict]: a copy of [self.__dict__]. *)
Definition to_dict (cfg : RenderConfig) : gmap string value := vars cfg.

(** [RenderConfig.from_dict]: a fresh instance whose [__dict__] is updated
    with [d]; the entries of [d] replace the defaults of the same keys. *)
Definition from_dict (d : gmap string value) : option RenderConfig :=
  of_vars (d ∪ vars RenderConfig_init).

Definition build_command (cfg : RenderConfig) : result (list string * string) :=
  let cmd := if Py.truthy cfg.(c4d_cmd) then [cfg.(c4d_cmd)] else [] in
  let cmd :=
    if cfg.(force_renderer) && Py.truthy cfg.(renderer)
    then cmd ++ ["-renderer"; cfg.(renderer)] else cmd in
  if negb (Py.truthy cfg.(scene_path)) then Raise (ValueError "Scene path is required.") else
  let cmd := cmd ++ ["-render"; cfg.(scene_path)] in
  if negb (Py.truthy cfg.(output_dir)) then Raise (ValueError "Output directory is required.") else
  let base := Py.or_else cfg.(base_name) "frame_" in
  let oimage := os_path_join cfg.(output_dir) base in
  let cmd := cmd ++ ["-oimage"; oimage] in
  let cmd :=
    if cfg.(override_format) && Py.truthy cfg.(format)
    then cmd ++ ["-ofmt"; cfg.(format)] else cmd in
  cmd ←
    (if cfg.(override_res)
     then w ← Py.str cfg.(res_w); h ← Py.str cfg.(res_h); Ok (cmd ++ ["-ores"; w; h])
     else Ok cmd);
  cmd ←
    (if cfg.(use_duration) then
       product ← Py.float_mul_int cfg.(duration_seconds) cfg.(fps);
       total_frames ← Py.round product;
       let start := 0 in
       let end_ := total_frames in
       first ← Py.str start; last ← Py.str end_;
       Ok (cmd ++ ["-frame"; first; last])
     else
       if cfg.(end_frame) <? cfg.(start_frame)
       then Raise (ValueError "End frame must be >= start frame.")
       else
         first ← Py.str cfg.(start_frame); last ← Py.str cfg.(end_frame);
         Ok (cmd ++ ["-frame"; first; last]));
  count ← Py.str cfg.(threads);
  let cmd := cmd ++ ["-threads"; count] in
  cmd ←
    (if Py.truthy (Py.strip cfg.(extra_args))
     then toks ← shlex.split cfg.(extra_args) (negb on_windows); Ok (cmd ++ toks)
     else Ok cmd);
  let pretty :=
    Py.str_join " " (map (fun x => if negb on_windows then shlex.quote x else quote_win x) cmd) in
  Ok (cmd, pretty).

End Environment.

(** ** The process runner *)

(** The line feed, as a one-character str. *)
Definition newline : string := String "010"%char EmptyString.

(** How the reading of the output of a started process ends: with the end
    of the stream, after which [proc.wait()] returns the exit code; or with
    an exception, raised by the read of a line ([UnicodeDecodeError] for
    bytes that do not decode, the stream being opened with [text=True]), by
    the closing of the stream or by [proc.wait()]. *)
Inductive stream_end : Type :=
  | exits (returncode : Z)
  | read_raises.

(** What [subprocess.Popen(cmd, ...)] does, and for a started process the
    lines read from its merged output and how the reading ends. *)
Inductive Popen_result : Type :=
  | raises_FileNotFoundError
  | raises_Exception (e : string)  (* any other exception, [e] its str() *)
  | started (stdout : list string) (ending : stream_end).

(** A call of one of the two sinks. *)
Inductive callback : Type :=
  | output_call (text : string)
  | done_call (code : Z).

Section ProcessRunner.

(** The operating system: how the launch of a command ends. *)
Variable Popen : list string -> Popen_result.

(** The caller's sinks act on a state of the caller's. [on_output] returns
    normally; [on_done] is the last call on every path, so that an
    exception leaving it ends the thread as its return does. *)
Context {St : Type}.
Variable on_output : string -> St -> St.
Variable on_done : Z -> St -> St.

(** The body of the thread [run_command_async] starts. Only the call of
    [Popen] is inside the [try]: an exception raised after the start ends
    the thread where it is raised, and [on_done] is not called. *)
Definition worker (cmd : list string) (s : St) : St :=
  match Popen cmd with
  | raises_FileNotFoundError =>
      let s := on_output ("ERROR: Commandline executable not found." +:+ newline) s in
      on_done 1 s
  | raises_Exception e =>
      let s := on_output ("ERROR: " +:+ e +:+ newline) s in
      on_done 1 s
  | started stdout ending =>
      let s := fold_left (fun s line => on_output line s) stdout s in
      match ending with
      | exits returncode =>
          let ret := returncode in
          on_done ret s
      | read_raises => s
      end
  end.

(** [run_command_async]: the thread runs [worker]; nothing is returned to
    the caller, who goes on at once. *)
Definition run_command_async (cmd : list string) : St -> St := worker cmd.

Definition run_callback (c : callback) (s : St) : St :=
  match c with
  | output_call text => on_output text s
  | done_call code => on_done code s
  end.

Definition run_callbacks (l : list callback) (s : St) : St :=
  fold_left (fun s c => run_callback c s) l s.

End ProcessRunner.

(** The sinks that record the calls made to them, in order. *)
Definition record_output (text : string) (log : list callback) : list callback :=
  log ++ [output_call text].

Definition record_done (code : Z) (log : list callback) : list callback :=
  log ++ [done_call code].

Definition is_done (c : callback) : bool :=
  match c with done_call _ => true | output_call _ => false end.

(** ** The command, step by step, as the specification words it

    These follow the numbered steps of the specification's algorithm; they
    are compared with [build_command] in [build_command_steps] below. *)

Module Spec.

Section Steps.

Variable sys_platform : string.

(** Step 7: the first and last frame, or the validation error. *)
Definition frame_range (cfg : RenderConfig) : result (Z * Z) :=
  if cfg.(use_duration) then
    product ← Py.float_mul_int cfg.(duration_seconds) cfg.(fps);
    total ← Py.round product;
    Ok (0, total)
  else if cfg.(end_frame) <? cfg.(start_frame)
  then Raise (ValueError "End frame must be >= start frame.")
  else Ok (cfg.(start_frame), cfg.(end_frame)).

(** Step 6: the width and the height, when they are emitted, can be
    written out. *)
Definition resolution_prints (cfg : RenderConfig) : bool :=
  negb cfg.(override_res) || Py.printable cfg.(res_w) && Py.printable cfg.(res_h).

(** Steps 7 and 8: the two frames and the thread count can be written out. *)
Definition range_prints (cfg : RenderConfig) (range : Z * Z) : bool :=
  Py.printable range.1 && Py.printable range.2 && Py.printable cfg.(threads).

(** Step 9: the tokens of the extra arguments, none for a blank string. *)
Definition extra_tokens (cfg : RenderConfig) : result (list string) :=
  if Py.truthy (Py.strip cfg.(extra_args))
  then shlex.split cfg.(extra_args) (negb (on_windows sys_platform))
  else Ok [].

(** Steps 1 to 6: the tokens before the frame range. *)
Definition leading_tokens (cfg : RenderConfig) : list string :=
  (if Py.truthy cfg.(c4d_cmd) then [cfg.(c4d_cmd)] else [])
  ++ (if cfg.(force_renderer) && Py.truthy cfg.(renderer)
      then ["-renderer"; cfg.(renderer)] else [])
  ++ ["-render"; cfg.(scene_path)]
  ++ ["-oimage"; os_path_join sys_platform cfg.(output_dir) (Py.or_else cfg.(base_name) "frame_")]
  ++ (if cfg.(override_format) && Py.truthy cfg.(format) then ["-ofmt"; cfg.(format)] else [])
  ++ (if cfg.(override_res)
      then ["-ores"; Py.decimal cfg.(res_w); Py.decimal cfg.(res_h)] else []).

(** Steps 1 to 9: all the tokens. *)
Definition tokens (cfg : RenderConfig) (range : Z * Z) (extra : list string) : list string :=
  leading_tokens cfg
  ++ ["-frame"; Py.decimal range.1; Py.decimal range.2]
  ++ ["-threads"; Py.decimal cfg.(threads)]
  ++ extra.

(** Step 10: the display string. *)
Definition display (cmd : list string) : string :=
  Py.str_join " "
    (map (fun x => if negb (on_windows sys_platform) then shlex.quote x else quote_win x) cmd).

Definition command (cfg : RenderConfig) : result (list string * string) :=
  if negb (Py.truthy cfg.(scene_path)) then Raise (ValueError "Scene path is required.")
  else if negb (Py.truthy cfg.(output_dir)) then Raise (ValueError "Output directory is required.")
  else if negb (resolution_prints cfg) then Raise Py.digits_error
  else
    range ← frame_range cfg;
    if negb (range_prints cfg range) then Raise Py.digits_error
    else
      extra ← extra_tokens cfg;
      let cmd := tokens cfg range extra in
      Ok (cmd, display cmd).

End Steps.

End Spec.

(** ** Instances used as concrete inputs *)

Definition set_c4d_cmd (s : string) (cfg : RenderConfig) : RenderConfig := {|
  c4d_cmd := s; scene_path := cfg.(scene_path); output_dir := cfg.(output_dir);
  base_name := cfg.(base_name); format := cfg.(format);
  override_format := cfg.(override_format); override_res := cfg.(override_res);
  res_w := cfg.(res_w); res_h := cfg.(res_h); use_duration := cfg.(use_duration);
  duration_seconds := cfg.(duration_seconds); fps := cfg.(fps);
  start_frame := cfg.(start_frame); end_frame := cfg.(end_frame);
  renderer := cfg.(renderer); force_renderer := cfg.(force_renderer);
  threads := cfg.(threads); extra_args := cfg.(extra_args)
|}.

Definition set_paths (scene out : string) (cfg : RenderConfig) : RenderConfig := {|
  c4d_cmd := cfg.(c4d_cmd); scene_path := scene; output_dir := out;
  base_name := cfg.(base_name); format := cfg.(format);
  override_format := cfg.(override_format); override_res := cfg.(override_res);
  res_w := cfg.(res_w); res_h := cfg.(res_h); use_duration := cfg.(use_duration);
  duration_seconds := cfg.(duration_seconds); fps := cfg.(fps);
  start_frame := cfg.(start_frame); end_frame := cfg.(end_frame);
  renderer := cfg.(renderer); force_renderer := cfg.(force_renderer);
  threads := cfg.(threads); extra_args := cfg.(extra_args)
|}.

Definition set_duration (seconds : float) (rate : Z) (cfg : RenderConfig) : RenderConfig := {|
  c4d_cmd := cfg.(c4d_cmd); scene_path := cfg.(scene_path); output_dir := cfg.(output_dir);
  base_name := cfg.(base_name); format := cfg.(format);
  override_format := cfg.(override_format); override_res := cfg.(override_res);
  res_w := cfg.(res_w); res_h := cfg.(res_h); use_duration := true;
  duration_seconds := seconds; fps := rate;
  start_frame := cfg.(start_frame); end_frame := cfg.(end_frame);
  renderer := cfg.(renderer); force_renderer := cfg.(force_renderer);
  threads := cfg.(threads); extra_args := cfg.(extra_args)
|}.

Definition set_frames (first last : Z) (cfg : RenderConfig) : RenderConfig := {|
  c4d_cmd := cfg.(c4d_cmd); scene_path := cfg.(scene_path); output_dir := cfg.(output_dir);
  base_name := cfg.(base_name); format := cfg.(format);
  override_format := cfg.(override_format); override_res := cfg.(override_res);
  res_w := cfg.(res_w); res_h := cfg.(res_h); use_duration := false;
  duration_seconds := cfg.(duration_seconds); fps := cfg.(fps);
  start_frame := first; end_frame := last;
  renderer := cfg.(renderer); force_renderer := cfg.(force_renderer);
  threads := cfg.(threads); extra_args := cfg.(extra_args)
|}.

Definition set_extra_args (s : string) (cfg : RenderConfig) : RenderConfig := {|
  c4d_cmd := cfg.(c4d_cmd); scene_path := cfg.(scene_path); output_dir := cfg.(output_dir);
  base_name := cfg.(base_name); format := cfg.(format);
  override_format := cfg.(override_format); override_res := cfg.(override_res);
  res_w := cfg.(res_w); res_h := cfg.(res_h); use_duration := cfg.(use_duration);
  duration_seconds := cfg.(duration_seconds); fps := cfg.(fps);
  start_frame := cfg.(start_frame); end_frame := cfg.(end_frame);
  renderer := cfg.(renderer); force_renderer := cfg.(force_renderer);
  threads := cfg.(threads); extra_args := s
|}.

(** The instance of the specification's example: the defaults of
    [RenderConfig()] under the fields the example gives, with [c4d] for the
    renderer executable, which the example leaves open. *)
Definition example_config (c4d : string) : RenderConfig := {|
  c4d_cmd := c4d;
  scene_path := "/s.c4d";
  output_dir := "/out";
  base_name := "f_";
  format := "exr";
  override_format := true;
  override_res := false;
  res_w := 1920;
  res_h := 1080;
  use_duration := true;
  duration_seconds := 2.0%float;
  fps := 25;
  start_frame := 0;
  end_frame := 100;
  renderer := "Redshift";
  force_renderer := true;
  threads := 0;
  extra_args := EmptyString
|}.

(** The fields the example leaves open are those of [RenderConfig()]. *)
Definition agrees_on_open_fields (c d : RenderConfig) : Prop :=
  c.(c4d_cmd) = d.(c4d_cmd) /\ c.(override_res) = d.(override_res)
  /\ c.(res_w) = d.(res_w) /\ c.(res_h) = d.(res_h)
  /\ c.(start_frame) = d.(start_frame) /\ c.(end_frame) = d.(end_frame)
  /\ c.(renderer) = d.(renderer) /\ c.(force_renderer) = d.(force_renderer)
  /\ c.(extra_args) = d.(extra_args).

(** [l] starts with the elements of [sub]. *)
Fixpoint starts_with (sub l : list string) : bool :=
  match sub, l with
  | [], _ => true
  | x :: sub', y :: l' => String.eqb x y && starts_with sub' l'
  | _ :: _, [] => false
  end.

(** [sub] occurs in [l] as consecutive elements. *)
Fixpoint occurs_in (sub l : list string) : bool :=
  starts_with sub l ||
  match l with
  | [] => false
  | _ :: l' => occurs_in sub l'
  end.

(** A config with every optional part switched on. *)
Definition full_config : RenderConfig := {|
  c4d_cmd := "/opt/maxon/Commandline";
  scene_path := "/shots/s.c4d";
  output_dir := "/renders";
  base_name := EmptyString;
  format := "tif";
  override_format := true;
  override_res := true;
  res_w := 1280;
  res_h := 720;
  use_duration := false;
  duration_seconds := 15.0%float;
  fps := 25;
  start_frame := 10;
  end_frame := 20;
  renderer := "Redshift";
  force_renderer := true;
  threads := 8;
  extra_args := "--foo " +:+ dquote +:+ "bar baz" +:+ dquote
|}.

(** The assignment [cfg.<attribute> = x], one definition for each attribute
    that [sync_cfg] assigns. *)

Definition set_scene_path (x : string) (cfg : RenderConfig) : RenderConfig := {|
  c4d_cmd := cfg.(c4d_cmd); scene_path := x; output_dir := cfg.(output_dir);
  base_name := cfg.(base_name); format := cfg.(format);
  override_format := cfg.(override_format); override_res := cfg.(override_res);
  res_w := cfg.(res_w); res_h := cfg.(res_h); use_duration := cfg.(use_duration);
  duration_seconds := cfg.(duration_seconds); fps := cfg.(fps);
  start_frame := cfg.(start_frame); end_frame := cfg.(end_frame);
  renderer := cfg.(renderer); force_renderer := cfg.(force_renderer);
  threads := cfg.(threads); extra_args := cfg.(extra_args)
|}.

Definition set_output_dir (x : string) (cfg : RenderConfig) : RenderConfig := {|
  c4d_cmd := cfg.(c4d_cmd); scene_path := cfg.(scene_path); output_dir := x;
  base_name := cfg.(base_name); format := cfg.(format);
  override_format := cfg.(override_format); override_res := cfg.(override_res);
  res_w := cfg.(res_w); res_h := cfg.(res_h); use_duration := cfg.(use_duration);
  duration_seconds := cfg.(duration_seconds); fps := cfg.(fps);
  start_frame := cfg.(start_frame); end_frame := cfg.(end_frame);
  renderer := cfg.(renderer); force_renderer := cfg.(force_renderer);
  threads := cfg.(threads); extra_args := cfg.(extra_args)
|}.

Definition set_base_name (x : string) (cfg : RenderConfig) : RenderConfig := {|
  c4d_cmd := cfg.(c4d_cmd); scene_path := cfg.(scene_path); output_dir := cfg.(output_dir);
  base_name := x; format := cfg.(format); override_format := cfg.(override_format);
  override_res := cfg.(override_res); res_w := cfg.(res_w); res_h := cfg.(res_h);
  use_duration := cfg.(use_duration); duration_seconds := cfg.(duration_seconds);
  fps := cfg.(fps); start_frame := cfg.(start_frame); end_frame := cfg.(end_frame);
  renderer := cfg.(renderer); force_renderer := cfg.(force_renderer);
  threads := cfg.(threads); extra_args := cfg.(extra_args)
|}.

Definition set_format (x : string) (cfg : RenderConfig) : RenderConfig := {|
  c4d_cmd := cfg.(c4d_cmd); scene_path := cfg.(scene_path); output_dir := cfg.(output_dir);
  base_name := cfg.(base_name); format := x; override_format := cfg.(override_format);
  override_res := cfg.(override_res); res_w := cfg.(res_w); res_h := cfg.(res_h);
  use_duration := cfg.(use_duration); duration_seconds := cfg.(duration_seconds);
  fps := cfg.(fps); start_frame := cfg.(start_frame); end_frame := cfg.(end_frame);
  renderer := cfg.(renderer); force_renderer := cfg.(force_renderer);
  threads := cfg.(threads); extra_args := cfg.(extra_args)
|}.

Definition set_override_format (x : bool) (cfg : RenderConfig) : RenderConfig := {|
  c4d_cmd := cfg.(c4d_cmd); scene_path := cfg.(scene_path); output_dir := cfg.(output_dir);
  base_name := cfg.(base_name); format := cfg.(format); override_format := x;
  override_res := cfg.(override_res); res_w := cfg.(res_w); res_h := cfg.(res_h);
  use_duration := cfg.(use_duration); duration_seconds := cfg.(duration_seconds);
  fps := cfg.(fps); start_frame := cfg.(start_frame); end_frame := cfg.(end_frame);
  renderer := cfg.(renderer); force_renderer := cfg.(force_renderer);
  threads := cfg.(threads); extra_args := cfg.(extra_args)
|}.

Definition set_override_res (x : bool) (cfg : RenderConfig) : RenderConfig := {|
  c4d_cmd := cfg.(c4d_cmd); scene_path := cfg.(scene_path); output_dir := cfg.(output_dir);
  base_name := cfg.(base_name); format := cfg.(format);
  override_format := cfg.(override_format); override_res := x; res_w := cfg.(res_w);
  res_h := cfg.(res_h); use_duration := cfg.(use_duration);
  duration_seconds := cfg.(duration_seconds); fps := cfg.(fps);
  start_frame := cfg.(start_frame); end_frame := cfg.(end_frame);
  renderer := cfg.(renderer); force_renderer := cfg.(force_renderer);
  threads := cfg.(threads); extra_args := cfg.(extra_args)
|}.

Definition set_res_w (x : Z) (cfg : RenderConfig) : RenderConfig := {|
  c4d_cmd := cfg.(c4d_cmd); scene_path := cfg.(scene_path); output_dir := cfg.(output_dir);
  base_name := cfg.(base_name); format := cfg.(format);
  override_format := cfg.(override_format); override_res := cfg.(override_res); res_w := x;
  res_h := cfg.(res_h); use_duration := cfg.(use_duration);
  duration_seconds := cfg.(duration_seconds); fps := cfg.(fps);
  start_frame := cfg.(start_frame); end_frame := cfg.(end_frame);
  renderer := cfg.(renderer); force_renderer := cfg.(force_renderer);
  threads := cfg.(threads); extra_args := cfg.(extra_args)
|}.

Definition set_res_h (x : Z) (cfg : RenderConfig) : RenderConfig := {|
  c4d_cmd := cfg.(c4d_cmd); scene_path := cfg.(scene_path); output_dir := cfg.(output_dir);
  base_name := cfg.(base_name); format := cfg.(format);
  override_format := cfg.(override_format); override_res := cfg.(override_res);
  res_w := cfg.(res_w); res_h := x; use_duration := cfg.(use_duration);
  duration_seconds := cfg.(duration_seconds); fps := cfg.(fps);
  start_frame := cfg.(start_frame); end_frame := cfg.(end_frame);
  renderer := cfg.(renderer); force_renderer := cfg.(force_renderer);
  threads := cfg.(threads); extra_args := cfg.(extra_args)
|}.

Definition set_use_duration (x : bool) (cfg : RenderConfig) : RenderConfig := {|
  c4d_cmd := cfg.(c4d_cmd); scene_path := cfg.(scene_path); output_dir := cfg.(output_dir);
  base_name := cfg.(base_name); format := cfg.(format);
  override_format := cfg.(override_format); override_res := cfg.(override_res);
  res_w := cfg.(res_w); res_h := cfg.(res_h); use_duration := x;
  duration_seconds := cfg.(duration_seconds); fps := cfg.(fps);
  start_frame := cfg.(start_frame); end_frame := cfg.(end_frame);
  renderer := cfg.(renderer); force_renderer := cfg.(force_renderer);
  threads := cfg.(threads); extra_args := cfg.(extra_args)
|}.

Definition set_duration_seconds (x : float) (cfg : RenderConfig) : RenderConfig := {|
  c4d_cmd := cfg.(c4d_cmd); scene_path := cfg.(scene_path); output_dir := cfg.(output_dir);
  base_name := cfg.(base_name); format := cfg.(format);
  override_format := cfg.(override_format); override_res := cfg.(override_res);
  res_w := cfg.(res_w); res_h := cfg.(res_h); use_duration := cfg.(use_duration);
  duration_seconds := x; fps := cfg.(fps); start_frame := cfg.(start_frame);
  end_frame := cfg.(end_frame); renderer := cfg.(renderer);
  force_renderer := cfg.(force_renderer); threads := cfg.(threads);
  extra_args := cfg.(extra_args)
|}.

Definition set_fps (x : Z) (cfg : RenderConfig) : RenderConfig := {|
  c4d_cmd := cfg.(c4d_cmd); scene_path := cfg.(scene_path); output_dir := cfg.(output_dir);
  base_name := cfg.(base_name); format := cfg.(format);
  override_format := cfg.(override_format); override_res := cfg.(override_res);
  res_w := cfg.(res_w); res_h := cfg.(res_h); use_duration := cfg.(use_duration);
  duration_seconds := cfg.(duration_seconds); fps := x; start_frame := cfg.(start_frame);
  end_frame := cfg.(end_frame); renderer := cfg.(renderer);
  force_renderer := cfg.(force_renderer); threads := cfg.(threads);
  extra_args := cfg.(extra_args)
|}.

Definition set_start_frame (x : Z) (cfg : RenderConfig) : RenderConfig := {|
  c4d_cmd := cfg.(c4d_cmd); scene_path := cfg.(scene_path); output_dir := cfg.(output_dir);
  base_name := cfg.(base_name); format := cfg.(format);
  override_format := cfg.(override_format); override_res := cfg.(override_res);
  res_w := cfg.(res_w); res_h := cfg.(res_h); use_duration := cfg.(use_duration);
  duration_seconds := cfg.(duration_seconds); fps := cfg.(fps); start_frame := x;
  end_frame := cfg.(end_frame); renderer := cfg.(renderer);
  force_renderer := cfg.(force_renderer); threads := cfg.(threads);
  extra_args := cfg.(extra_args)
|}.

Definition set_end_frame (x : Z) (cfg : RenderConfig) : RenderConfig := {|
  c4d_cmd := cfg.(c4d_cmd); scene_path := cfg.(scene_path); output_dir := cfg.(output_dir);
  base_name := cfg.(base_name); format := cfg.(format);
  override_format := cfg.(override_format); override_res := cfg.(override_res);
  res_w := cfg.(res_w); res_h := cfg.(res_h); use_duration := cfg.(use_duration);
  duration_seconds := cfg.(duration_seconds); fps := cfg.(fps);
  start_frame := cfg.(start_frame); end_frame := x; renderer := cfg.(renderer);
  force_renderer := cfg.(force_renderer); threads := cfg.(threads);
  extra_args := cfg.(extra_args)
|}.

Definition set_renderer (x : string) (cfg : RenderConfig) : RenderConfig := {|
  c4d_cmd := cfg.(c4d_cmd); scene_path := cfg.(scene_path); output_dir := cfg.(output_dir);
  base_name := cfg.(base_name); format := cfg.(format);
  override_format := cfg.(override_format); override_res := cfg.(override_res);
  res_w := cfg.(res_w); res_h := cfg.(res_h); use_duration := cfg.(use_duration);
  duration_seconds := cfg.(duration_seconds); fps := cfg.(fps);
  start_frame := cfg.(start_frame); end_frame := cfg.(end_frame); renderer := x;
  force_renderer := cfg.(force_renderer); threads := cfg.(threads);
  extra_args := cfg.(extra_args)
|}.

Definition set_force_renderer (x : bool) (cfg : RenderConfig) : RenderConfig := {|
  c4d_cmd := cfg.(c4d_cmd); scene_path := cfg.(scene_path); output_dir := cfg.(output_dir);
  base_name := cfg.(base_name); format := cfg.(format);
  override_format := cfg.(override_format); override_res := cfg.(override_res);
  res_w := cfg.(res_w); res_h := cfg.(res_h); use_duration := cfg.(use_duration);
  duration_seconds := cfg.(duration_seconds); fps := cfg.(fps);
  start_frame := cfg.(start_frame); end_frame := cfg.(end_frame);
  renderer := cfg.(renderer); force_renderer := x; threads := cfg.(threads);
  extra_args := cfg.(extra_args)
|}.

Definition set_threads (x : Z) (cfg : RenderConfig) : RenderConfig := {|
  c4d_cmd := cfg.(c4d_cmd); scene_path := cfg.(scene_path); output_dir := cfg.(output_dir);
  base_name := cfg.(base_name); format := cfg.(format);
  override_format := cfg.(override_format); override_res := cfg.(override_res);
  res_w := cfg.(res_w); res_h := cfg.(res_h); use_duration := cfg.(use_duration);
  duration_seconds := cfg.(duration_seconds); fps := cfg.(fps);
  start_frame := cfg.(start_frame); end_frame := cfg.(end_frame);
  renderer := cfg.(renderer); force_renderer := cfg.(force_renderer); threads := x;
  extra_args := cfg.(extra_args)
|}.

(** ** The form and its handlers *)

(** The variables of the form: what the [get()] of each does. A
    [StringVar] returns the text of its entry. A [BooleanVar] is written by
    the check buttons, the radio buttons and [set] only, which store a
    Boolean, and returns it. An [IntVar] and a [DoubleVar] are bound to an
    entry the user types into: [get()] returns the number the text reads
    as, or raises [TclError] when it reads as none. A variable returns what
    was [set]. *)
Record Vars : Type := {
  c4d_cmd_var : string;
  scene_var : string;
  outdir_var : string;
  base_var : string;
  override_fmt_var : bool;
  format_var : string;
  override_res_var : bool;
  res_w_var : result Z;
  res_h_var : result Z;
  use_duration_var : bool;
  duration_var : result float;
  fps_var : result Z;
  start_var : result Z;
  end_var : result Z;
  force_renderer_var : bool;
  renderer_var : string;
  threads_var : result Z;
  extra_args_var : string;
}.

(** A modal error box that was shown. *)
Inductive dialog : Type :=
  | showerror (title message : string).

(** The state of the [App] the handlers read and write: the config, the
    variables, the text of the two [Text] widgets, whether the run button is
    in state ["normal"], and the error boxes shown so far. *)
Record App : Type := {
  self_cfg : RenderConfig;
  self_vars : Vars;
  self_cmd_preview : string;
  self_log : string;
  self_run_btn : bool;
  dialogs : list dialog;
}.

Definition set_cfg (c : RenderConfig) (self : App) : App := {|
  self_cfg := c; self_vars := self.(self_vars);
  self_cmd_preview := self.(self_cmd_preview); self_log := self.(self_log);
  self_run_btn := self.(self_run_btn); dialogs := self.(dialogs)
|}.

Definition set_vars (v : Vars) (self : App) : App := {|
  self_cfg := self.(self_cfg); self_vars := v;
  self_cmd_preview := self.(self_cmd_preview); self_log := self.(self_log);
  self_run_btn := self.(self_run_btn); dialogs := self.(dialogs)
|}.

(** [self.cmd_preview.delete("1.0", "end")] and [insert("end", text)] *)
Definition set_cmd_preview (text : string) (self : App) : App := {|
  self_cfg := self.(self_cfg); self_vars := self.(self_vars);
  self_cmd_preview := text; self_log := self.(self_log);
  self_run_btn := self.(self_run_btn); dialogs := self.(dialogs)
|}.

(** [self.log.delete("1.0", "end")] *)
Definition clear_log (self : App) : App := {|
  self_cfg := self.(self_cfg); self_vars := self.(self_vars);
  self_cmd_preview := self.(self_cmd_preview); self_log := EmptyString;
  self_run_btn := self.(self_run_btn); dialogs := self.(dialogs)
|}.

(** [self.run_btn.config(state=...)]: ["normal"] is [true]. *)
Definition config_run_btn (normal : bool) (self : App) : App := {|
  self_cfg := self.(self_cfg); self_vars := self.(self_vars);
  self_cmd_preview := self.(self_cmd_preview); self_log := self.(self_log);
  self_run_btn := normal; dialogs := self.(dialogs)
|}.

(** [messagebox.showerror(title, message)] *)
Definition messagebox_showerror (title message : string) (self : App) : App := {|
  self_cfg := self.(self_cfg); self_vars := self.(self_vars);
  self_cmd_preview := self.(self_cmd_preview); self_log := self.(self_log);
  self_run_btn := self.(self_run_btn);
  dialogs := self.(dialogs) ++ [showerror title message]
|}.

(** [App.append_log] *)
Definition append_log (text : string) (self : App) : App := {|
  self_cfg := self.(self_cfg); self_vars := self.(self_vars);
  self_cmd_preview := self.(self_cmd_preview); self_log := self.(self_log) +:+ text;
  self_run_btn := self.(self_run_btn); dialogs := self.(dialogs)
|}.

(** [str(e)] of an exception raised with one message. *)
Definition exn_str (e : exn) : string :=
  match e with
  | ValueError msg => msg
  | OverflowError msg => msg
  | TclError msg => msg
  end.

(** [n or default] for ints. *)
Definition int_or (n default : Z) : Z := if n =? 0 then default else n.

(** A step of [sync_cfg] that may raise: the exception leaves the method,
    and [self.cfg] keeps the attributes assigned before it. *)
Definition get_or_raise {A : Type} (r : result A) (c : RenderConfig) (self : App)
    (k : A -> App * result RenderConfig) : App * result RenderConfig :=
  match r with
  | Ok a => k a
  | Raise e => (set_cfg c self, Raise e)
  end.

(** [App.sync_cfg]: the attributes of [self.cfg] are assigned from the
    variables, one after the other; the config is returned. *)
Definition sync_cfg (self : App) : App * result RenderConfig :=
  let v := self.(self_vars) in
  let c := self.(self_cfg) in
  let c := set_c4d_cmd (Py.strip v.(c4d_cmd_var)) c in
  let c := set_scene_path (Py.strip v.(scene_var)) c in
  let c := set_output_dir (Py.strip v.(outdir_var)) c in
  let c := set_base_name (Py.or_else (Py.strip v.(base_var)) "frame_") c in
  let c := set_override_format v.(override_fmt_var) c in
  let c := set_format (Py.strip v.(format_var)) c in
  let c := set_override_res v.(override_res_var) c in
  get_or_raise v.(res_w_var) c self (fun n =>
  let c := set_res_w n c in
  get_or_raise v.(res_h_var) c self (fun n =>
  let c := set_res_h n c in
  let c := set_use_duration v.(use_duration_var) c in
  get_or_raise v.(duration_var) c self (fun x =>
  let c := set_duration_seconds x c in
  get_or_raise v.(fps_var) c self (fun n =>
  let c := set_fps (int_or n DEFAULT_FPS) c in
  get_or_raise v.(start_var) c self (fun n =>
  let c := set_start_frame n c in
  get_or_raise v.(end_var) c self (fun n =>
  let c := set_end_frame n c in
  let c := set_force_renderer v.(force_renderer_var) c in
  let c := set_renderer (Py.or_else (Py.strip v.(renderer_var)) "Redshift") c in
  get_or_raise v.(threads_var) c self (fun n =>
  let c := set_threads n c in
  let c := set_extra_args v.(extra_args_var) c in
  (set_cfg c self, Ok c)))))))).

(** [App._apply_cfg_to_ui] *)
Definition _apply_cfg_to_ui (self : App) : App :=
  let c := self.(self_cfg) in
  set_vars {|
    c4d_cmd_var := c.(c4d_cmd);
    scene_var := c.(scene_path);
    outdir_var := c.(output_dir);
    base_var := c.(base_name);
    override_fmt_var := c.(override_format);
    format_var := c.(format);
    override_res_var := c.(override_res);
    res_w_var := Ok c.(res_w);
    res_h_var := Ok c.(res_h);
    use_duration_var := c.(use_duration);
    duration_var := Ok c.(duration_seconds);
    fps_var := Ok (int_or c.(fps) DEFAULT_FPS);
    start_var := Ok c.(start_frame);
    end_var := Ok c.(end_frame);
    force_renderer_var := c.(force_renderer);
    renderer_var := c.(renderer);
    threads_var := Ok c.(threads);
    extra_args_var := c.(extra_args)
  |} self.

Section Handlers.

Variable sys_platform : string.

(** [os.makedirs(path, exist_ok=True)]: [None] when it returns, [Some e]
    when it raises, [e] the str() of the exception. *)
Variable os_makedirs : string -> option string.

Variable Popen : list string -> Popen_result.

(** The text ["Starting render…\n"]; its ellipsis, U+2026, is no character
    of the strs of this model. *)
Variable STARTING_RENDER : string.

Definition on_preview (self : App) : App :=
  let '(self, synced) := sync_cfg self in
  match cfg ← synced; build_command sys_platform cfg with
  | Ok (_, pretty) => set_cmd_preview (pretty +:+ newline) self
  | Raise e => messagebox_showerror "Build Error" (exn_str e) self
  end.

(** The sinks [on_run] gives to the process runner. *)
Definition on_output (text : string) (self : App) : App := append_log text self.

(** The exit code is written out by the f-string, which raises as [str]
    does: the exception ends the worker's thread, and the button is left as
    it is. *)
Definition on_done (code : Z) (self : App) : App :=
  if code =? 0
  then
    let self := append_log (newline +:+ "Render completed successfully." +:+ newline) self in
    config_run_btn true self
  else
    match Py.str code with
    | Ok digits =>
        let self :=
          append_log (newline +:+ "Render FAILED with exit code " +:+ digits +:+ "."
                      +:+ newline) self in
        config_run_btn true self
    | Raise _ => self
    end.

(** [App.on_run], up to the end of the worker it starts. *)
Definition on_run (self : App) : App :=
  let '(self, synced) := sync_cfg self in
  match cfg ← synced; '(cmd, pretty) ← build_command sys_platform cfg; Ok (cfg, cmd, pretty) with
  | Raise e => messagebox_showerror "Build Error" (exn_str e) self
  | Ok (cfg, cmd, pretty) =>
      match os_makedirs cfg.(output_dir) with
      | Some e =>
          messagebox_showerror "Output Error"
            ("Cannot create output folder:" +:+ newline +:+ e) self
      | None =>
          let self := set_cmd_preview (pretty +:+ newline) self in
          let self := clear_log self in
          let self := config_run_btn false self in
          let self := append_log STARTING_RENDER self in
          run_command_async Popen on_output on_done cmd self
      end
  end.

End Handlers.

(** ** Notions used in the further properties *)

(** The characters of a str, in order. *)
Abbreviation chars := list_ascii_of_string.

(** The text [shlex.quote] puts for a single quote: it closes the
    quotation, gives the quote between double quotes, and opens again. *)
Definition quoted_quote : string := "'" +:+ dquote +:+ "'" +:+ dquote +:+ "'".

(** [s] does not start with white space. *)
Definition starts_clean (s : string) : bool :=
  match s with
  | EmptyString => true
  | String c _ => Py.nonspace c
  end.

(** The last character of [l], if any, is no white space. *)
Definition ends_clean (l : list ascii) : bool :=
  match last l with
  | None => true
  | Some c => Py.nonspace c
  end.

(** The paths [guess_c4d_command] tries on a platform, in its order. *)
Definition candidates_on (sys_platform : string) : list string :=
  if on_windows sys_platform then
    [ "C:\Program Files\Maxon Cinema 4D 2025\Commandline.exe";
      "C:\Program Files\Maxon Cinema 4D 2024\Commandline.exe";
      "C:\Program Files\Maxon Cinema 4D R26\Commandline.exe" ]
  else if String.eqb sys_platform "darwin" then
    [ "/Applications/Maxon Cinema 4D 2025/Commandline.app/Contents/MacOS/Commandline";
      "/Applications/Maxon Cinema 4D 2024/Commandline.app/Contents/MacOS/Commandline";
      "/Applications/Maxon Cinema 4D R26/Commandline.app/Contents/MacOS/Commandline" ]
  else [].

(** What [build_command] checks or computes with before it can fail: the
    two paths, the frame range, the extra arguments, and whether the
    resolution it emits and the thread count can be written out. *)
Definition same_checked_fields (c c' : RenderConfig) : Prop :=
  c.(scene_path) = c'.(scene_path)
  /\ c.(output_dir) = c'.(output_dir)
  /\ c.(use_duration) = c'.(use_duration)
  /\ c.(duration_seconds) = c'.(duration_seconds)
  /\ c.(fps) = c'.(fps)
  /\ c.(start_frame) = c'.(start_frame)
  /\ c.(end_frame) = c'.(end_frame)
  /\ c.(extra_args) = c'.(extra_args)
  /\ Spec.resolution_prints c = Spec.resolution_prints c'
  /\ Py.printable c.(threads) = Py.printable c'.(threads).

(** [App.__init__]: a fresh config, the variables created with its values
    ([create_widgets]), both text widgets empty, the run button in its
    initial state ["normal"], no error box shown. *)
Definition App_init (sys_platform : string) (os_path_exists : string -> bool) : App :=
  let c := RenderConfig_init sys_platform os_path_exists in
  {|
    self_cfg := c;
    self_vars := {|
      c4d_cmd_var := c.(c4d_cmd);
      scene_var := c.(scene_path);
      outdir_var := c.(output_dir);
      base_var := c.(base_name);
      override_fmt_var := c.(override_format);
      format_var := c.(format);
      override_res_var := c.(override_res);
      res_w_var := Ok c.(res_w);
      res_h_var := Ok c.(res_h);
      use_duration_var := c.(use_duration);
      duration_var := Ok c.(duration_seconds);
      fps_var := Ok (int_or c.(fps) DEFAULT_FPS);
      start_var := Ok c.(start_frame);
      end_var := Ok c.(end_frame);
      force_renderer_var := c.(force_renderer);
      renderer_var := c.(renderer);
      threads_var := Ok c.(threads);
      extra_args_var := c.(extra_args)
    |};
    self_cmd_preview := EmptyString;
    self_log := EmptyString;
    self_run_btn := true;
    dialogs := []
  |}.

(** A form filled in by hand: white space around the paths, the base name
    and the renderer left blank, the frame rate at zero. *)
Definition filled_form : Vars := {|
  c4d_cmd_var := "  /opt/maxon/Commandline ";
  scene_var := " /shots/s.c4d";
  outdir_var := "/renders  ";
  base_var := "   ";
  override_fmt_var := true;
  format_var := "exr";
  override_res_var := false;
  res_w_var := Ok 1920;
  res_h_var := Ok 1080;
  use_duration_var := true;
  duration_var := Ok 2.0%float;
  fps_var := Ok 0;
  start_var := Ok 0;
  end_var := Ok 100;
  force_renderer_var := true;
  renderer_var := EmptyString;
  threads_var := Ok 0;
  extra_args_var := EmptyString
|}.

(** The line [on_done] adds to the log for an exit code: none for a
    code that cannot be written out. *)
Definition verdict (code : Z) : string :=
  if code =? 0
  then newline +:+ "Render completed successfully." +:+ newline
  else if Py.printable code
  then newline +:+ "Render FAILED with exit code " +:+ Py.decimal code +:+ "." +:+ newline
  else EmptyString.

(** The worker gets to the end of [on_done]: the launch fails, or the
    output is read to the end of the stream and the exit code can be
    written out. *)
Definition reports_end (r : Popen_result) : bool :=
  match r with
  | raises_FileNotFoundError | raises_Exception _ => true
  | started _ (exits code) => Py.printable code
  | started _ read_raises => false
  end.

(** The exception of a call that raised. *)
Definition raised {A : Type} (r : result A) : option exn :=
  match r with
  | Ok _ => None
  | Raise e => Some e
  end.

(** The exception of the first numeric variable, in the order [sync_cfg]
    reads them, whose [get()] raises. *)
Definition first_unreadable (v : Vars) : option exn :=
  head (omap id [ raised v.(res_w_var); raised v.(res_h_var); raised v.(duration_var);
                  raised v.(fps_var); raised v.(start_var); raised v.(end_var);
                  raised v.(threads_var) ]).

(** A token that is not empty and holds no quote character. *)
Definition win_token (s : string) : bool :=
  Py.truthy s && negb (Py.any (fun c => Py.char_in c shlex.quotes) s).

(** What [sync_cfg] establishes: the text fields it strips carry no white
    space at either end, the base name and the renderer name are set, and
    the frame rate is not zero. *)
Definition normalized (c : RenderConfig) : Prop :=
  Py.strip c.(c4d_cmd) = c.(c4d_cmd)
  /\ Py.strip c.(scene_path) = c.(scene_path)
  /\ Py.strip c.(output_dir) = c.(output_dir)
  /\ Py.strip c.(base_name) = c.(base_name)
  /\ Py.strip c.(format) = c.(format)
  /\ Py.strip c.(renderer) = c.(renderer)
  /\ Py.truthy c.(base_name) = true
  /\ Py.truthy c.(renderer) = true
  /\ c.(fps) <> 0.

(** Case analysis on a flag of the config, keeping its value. *)
Ltac case_flag b := destruct b eqn:?; simpl.

(** The steps of [build_command] from the frame range on, each with the
    case where it raises; at the end the same tokens, grouped two ways. *)
Ltac same_tokens cfg :=
  destruct (Py.truthy (c4d_cmd cfg)), (force_renderer cfg && Py.truthy (renderer cfg)),
    (override_format cfg && Py.truthy (format cfg));
  simpl; rewrite <- ?app_assoc, ?app_nil_r; reflexivity.

Ltac tail_steps p cfg :=
  destruct (Py.printable (threads cfg)); simpl; rewrite ?andb_false_r; simpl;
  [| reflexivity];
  destruct (Py.truthy (Py.strip (extra_args cfg))); simpl;
  [destruct (shlex.split (extra_args cfg) (negb (on_windows p))); simpl;
   [| reflexivity] |];
  same_tokens cfg.

Ltac frame_steps p cfg :=
  destruct (use_duration cfg); simpl;
  [ destruct (Py.float_mul_int (duration_seconds cfg) (fps cfg)) as [x |]; simpl;
    [| reflexivity];
    destruct (Py.round x) as [total |]; simpl; [| reflexivity];
    destruct (Py.printable total); simpl; [| reflexivity]
  | destruct (end_frame cfg <? start_frame cfg); simpl; [reflexivity |];
    destruct (Py.printable (start_frame cfg)); simpl; [| reflexivity];
    destruct (Py.printable (end_frame cfg)); simpl; [| reflexivity] ];
  tail_steps p cfg.

(** * Properties *)

(** ** The result monad *)

Lemma bind_Ok {A B} (r : result A) (k : A -> result B) (b : B) :
  r ≫= k = Ok b <-> exists a, r = Ok a /\ k a = Ok b.
Proof.
  destruct r as [a | e]; simpl.
  - split; [eauto | intros (a' & [= <-] & H); exact H].
  - split; [discriminate | intros (a' & [=] & _)].
Qed.

(** ** Python built-ins *)

(** The numeral of an int tells ints apart. *)
Lemma decimal_inj (a b : Z) : Py.decimal a = Py.decimal b -> a = b.
Proof. unfold Py.decimal. apply pretty_Z_inj. Qed.

(** [str] returns the numeral of the ints within the limit, and of no
    other. *)
Lemma str_printable (n : Z) : Py.printable n = true -> Py.str n = Ok (Py.decimal n).
Proof. intros H. unfold Py.str. rewrite H. reflexivity. Qed.

Lemma str_unprintable (n : Z) : Py.printable n = false -> Py.str n = Raise Py.digits_error.
Proof. intros H. unfold Py.str. rewrite H. reflexivity. Qed.

Lemma str_Ok (n : Z) (s : string) :
  Py.str n = Ok s <-> Py.printable n = true /\ s = Py.decimal n.
Proof.
  unfold Py.str. destruct (Py.printable n); split.
  - intros [= <-]. split; reflexivity.
  - intros [_ ->]. reflexivity.
  - discriminate.
  - intros [[=] _].
Qed.

Lemma str_limit_eq : Py.str_limit = 10 ^ Py.int_max_str_digits.
Proof. vm_compute. reflexivity. Qed.

(** The ints [str] writes out are those of at most 4300 digits. *)
Lemma printable_iff (n : Z) :
  Py.printable n = true <-> Z.abs n < 10 ^ Py.int_max_str_digits.
Proof. unfold Py.printable. rewrite str_limit_eq. apply Z.ltb_lt. Qed.

Lemma printable_bound (n : Z) (k : Z) :
  Z.abs n <= k -> (k <? Py.str_limit) = true -> Py.printable n = true.
Proof. intros Hn Hk. apply Z.ltb_lt in Hk. unfold Py.printable. apply Z.ltb_lt. lia. Qed.

Lemma nearest_even_exact (m : positive) (e : Z) :
  0 <= e -> Py.nearest_even m e = Z.pos m * 2 ^ e.
Proof.
  intros He. unfold Py.nearest_even. apply Z.leb_le in He. rewrite He. reflexivity.
Qed.

(** Below the binary point, [nearest_even m e] is within one half of
    [m * 2^e], and it is even when it is exactly one half away. *)
Lemma nearest_even_nearest (m : positive) (e : Z) :
  e < 0 ->
  Z.abs (2 * (Py.nearest_even m e * 2 ^ (- e) - Z.pos m)) <= 2 ^ (- e)
  /\ (Z.abs (2 * (Py.nearest_even m e * 2 ^ (- e) - Z.pos m)) = 2 ^ (- e) ->
      Z.even (Py.nearest_even m e) = true).
Proof.
  intros He. unfold Py.nearest_even.
  assert (Hleb : (0 <=? e) = false) by (apply Z.leb_gt; exact He).
  rewrite Hleb.
  assert (Hd : 0 < 2 ^ (- e)) by (apply Z.pow_pos_nonneg; lia).
  set (d := 2 ^ (- e)) in *.
  pose proof (Z.div_mod (Z.pos m) d ltac:(lia)) as Hdm.
  pose proof (Z.mod_pos_bound (Z.pos m) d Hd) as Hr.
  set (q := Z.pos m / d) in *. set (r := Z.pos m mod d) in *.
  clearbody q r d. rewrite Hdm. clear Hdm.
  assert (Hq : q * d - (d * q + r) = - r) by ring.
  assert (Hq1 : (q + 1) * d - (d * q + r) = d - r) by ring.
  destruct (2 * r ?= d) eqn:Hcmp.
  - apply Z.compare_eq in Hcmp.
    destruct (Z.even q) eqn:Heven.
    + rewrite Hq. split; [lia | intros _; exact Heven].
    + rewrite Hq1. split; [lia |]. intros _. rewrite Z.even_add, Heven. reflexivity.
  - change (2 * r < d) in Hcmp. rewrite Hq. split; [lia | intros H; exfalso; lia].
  - change (2 * r > d) in Hcmp. rewrite Hq1. split; [lia | intros H; exfalso; lia].
Qed.

(** A mantissa is below the power of two of its number of digits. *)
Lemma digits2_pos_bound (m : positive) : Z.pos m < 2 ^ Z.pos (digits2_pos m).
Proof.
  induction m as [m IH | m IH |]; cbn [digits2_pos]; [| | reflexivity];
    rewrite Pos2Z.inj_succ, Z.pow_succ_r by lia; lia.
Qed.

(** The int [round] returns for a float is below [2^1024]: it can always
    be written out. *)
Lemma round_bound (x : float) (n : Z) : Py.round x = Ok n -> Z.abs n <= 2 ^ 1024.
Proof.
  unfold Py.round. pose proof (Prim2SF_valid x) as Hvalid.
  destruct (Prim2SF x) as [| | | s m e]; try discriminate.
  - intros [= <-]. simpl. lia.
  - intros [= <-]. cbn [valid_binary] in Hvalid. unfold bounded in Hvalid.
    apply andb_true_iff in Hvalid as [Hcanon He].
    unfold canonical_mantissa, fexp in Hcanon.
    apply Z.eqb_eq in Hcanon. apply Z.leb_le in He.
    change (emax - prec) with 971 in He. change prec with 53 in Hcanon.
    pose proof (digits2_pos_bound m) as Hm.
    assert (Hdigits : Z.pos (digits2_pos m) <= 53) by lia.
    assert (Hm53 : Z.pos m < 2 ^ 53).
    { eapply Z.lt_le_trans; [exact Hm |]. apply Z.pow_le_mono_r; lia. }
    assert (Hnear : 0 <= Py.nearest_even m e <= 2 ^ 1024).
    { unfold Py.nearest_even. destruct (0 <=? e) eqn:Hsign.
      - apply Z.leb_le in Hsign.
        assert (H2e : 0 < 2 ^ e <= 2 ^ 971).
        { split; [apply Z.pow_pos_nonneg; lia | apply Z.pow_le_mono_r; lia]. }
        change (2 ^ 1024) with (2 ^ 53 * 2 ^ 971). nia.
      - apply Z.leb_gt in Hsign.
        assert (Hd : 0 < 2 ^ (- e)) by (apply Z.pow_pos_nonneg; lia).
        pose proof (Z.div_pos (Z.pos m) (2 ^ (- e)) ltac:(lia) Hd) as Hq0.
        assert (Hq : Z.pos m / 2 ^ (- e) <= Z.pos m).
        { apply Z.div_le_upper_bound; [exact Hd |]. nia. }
        assert (H53 : 2 ^ 53 + 1 <= 2 ^ 1024) by (vm_compute; discriminate).
        destruct (2 * (Z.pos m mod 2 ^ (- e)) ?= 2 ^ (- e));
          [destruct (Z.even _) | |]; lia. }
    destruct s; lia.
Qed.

Lemma round_printable (x : float) (n : Z) : Py.round x = Ok n -> Py.printable n = true.
Proof.
  intros H. apply (printable_bound n (2 ^ 1024)); [apply (round_bound x), H |].
  vm_compute. reflexivity.
Qed.

(** [round] converts exactly the finite floats. *)
Lemma round_isfinite (x : float) :
  Py.isfinite x = true <-> exists n, Py.round x = Ok n.
Proof.
  unfold Py.isfinite, Py.round. destruct (Prim2SF x); split; eauto; try discriminate.
  - intros [n Hn]. discriminate.
  - intros [n Hn]. discriminate.
Qed.

Lemma any_rev_app (f : ascii -> bool) (s1 s2 : string) :
  Py.any f (String.rev_app s1 s2) = Py.any f s1 || Py.any f s2.
Proof.
  revert s2. induction s1 as [| c s1 IH]; intros s2; simpl; [reflexivity |].
  rewrite IH. simpl. destruct (f c), (Py.any f s1), (Py.any f s2); reflexivity.
Qed.

Lemma any_rev (f : ascii -> bool) (s : string) : Py.any f (String.rev s) = Py.any f s.
Proof. unfold String.rev. rewrite any_rev_app. simpl. apply orb_false_r. Qed.

Lemma truthy_any (s : string) : Py.truthy s = Py.any (fun _ => true) s.
Proof. destruct s; reflexivity. Qed.

Lemma any_lstrip (s : string) : Py.any Py.nonspace (Py.lstrip s) = Py.any Py.nonspace s.
Proof.
  induction s as [| c s IH]; simpl; [reflexivity |].
  unfold Py.nonspace at 2. destruct (Py.isspace c) eqn:Hc; simpl; [exact IH |].
  unfold Py.nonspace. rewrite Hc. reflexivity.
Qed.

Lemma truthy_lstrip (s : string) : Py.truthy (Py.lstrip s) = Py.any Py.nonspace s.
Proof.
  induction s as [| c s IH]; simpl; [reflexivity |].
  unfold Py.nonspace at 1. destruct (Py.isspace c); simpl; [exact IH | reflexivity].
Qed.

(** [s.strip()] is not empty exactly when [s] has a character that is not
    white space. *)
Lemma truthy_strip (s : string) : Py.truthy (Py.strip s) = Py.any Py.nonspace s.
Proof.
  unfold Py.strip, Py.rstrip.
  rewrite truthy_any, any_rev, <- truthy_any, truthy_lstrip, any_rev.
  apply any_lstrip.
Qed.

(** ** [shlex.split] *)

Lemma emit_Ok (posix quoted : bool) (token : string) (more : result (list string)) :
  (exists toks, more = Ok toks) -> exists toks, shlex.emit posix quoted token more = Ok toks.
Proof.
  intros [toks ->]. unfold shlex.emit.
  destruct (if posix then _ else _); simpl; eauto.
Qed.

(** Outside quotations and escapes the lexer cannot fail: over characters
    that open neither, it stays in the two states it can end in. *)
Lemma read_tokens_plain (posix : bool) (instream : list ascii) :
  forallb shlex.plain_char instream = true ->
  forall state escapedstate quoted token,
    state = shlex.in_space \/ state = shlex.in_word ->
    exists toks, shlex.read_tokens posix state escapedstate quoted token instream = Ok toks.
Proof.
  induction instream as [| c rest IH]; intros Hplain state esc quoted token Hstate.
  - destruct Hstate as [-> | ->]; simpl; apply emit_Ok; eauto.
  - simpl in Hplain. apply andb_true_iff in Hplain as [Hc Hrest].
    unfold shlex.plain_char in Hc. apply andb_true_iff in Hc as [Hq He].
    apply negb_true_iff in Hq, He.
    specialize (IH Hrest).
    destruct Hstate as [-> | ->]; cbn [shlex.read_tokens]; rewrite ?Hq, ?He, ?andb_false_r.
    + destruct (Py.char_in c shlex.whitespace).
      * destruct (Py.truthy token || posix && quoted); [apply emit_Ok |]; apply IH; auto.
      * destruct (shlex.in_wordchars posix c); apply IH; auto.
    + destruct (Py.char_in c shlex.whitespace).
      * destruct (Py.truthy token || posix && quoted); [apply emit_Ok |]; apply IH; auto.
      * apply IH; auto.
Qed.

(** A string without quote characters and backslashes always splits. *)
Lemma split_plain (s : string) (posix : bool) :
  forallb shlex.plain_char (list_ascii_of_string s) = true ->
  exists toks, shlex.split s posix = Ok toks.
Proof. intros H. apply read_tokens_plain; [exact H | left; reflexivity]. Qed.

(** ** [build_command] follows the steps of the specification *)

(** Extra arguments without quote characters and backslashes are accepted. *)
Lemma extra_tokens_plain (p : string) (cfg : RenderConfig) :
  forallb shlex.plain_char (list_ascii_of_string cfg.(extra_args)) = true ->
  exists extra, Spec.extra_tokens p cfg = Ok extra.
Proof.
  intros H. unfold Spec.extra_tokens.
  destruct (Py.truthy (Py.strip (extra_args cfg))); [apply split_plain; exact H | eauto].
Qed.

Lemma build_command_steps (p : string) (cfg : RenderConfig) :
  build_command p cfg = Spec.command p cfg.
Proof.
  unfold build_command, Spec.command, Spec.tokens, Spec.leading_tokens, Spec.display.
  unfold Spec.resolution_prints, Spec.range_prints, Spec.frame_range, Spec.extra_tokens.
  case_flag (Py.truthy (scene_path cfg)); [| reflexivity].
  case_flag (Py.truthy (output_dir cfg)); [| reflexivity].
  unfold Py.str.
  destruct (override_res cfg); simpl.
  - destruct (Py.printable (res_w cfg)); simpl; [| reflexivity].
    destruct (Py.printable (res_h cfg)); simpl; [| reflexivity].
    frame_steps p cfg.
  - frame_steps p cfg.
Qed.

(** When both paths are set, the frame range is valid, the numbers can be
    written out and the extra arguments split, the command is built, and it
    is [Spec.tokens]. *)
Lemma build_command_accepts (p : string) (cfg : RenderConfig)
    (range : Z * Z) (extra : list string) :
  Py.truthy cfg.(scene_path) = true ->
  Py.truthy cfg.(output_dir) = true ->
  Spec.resolution_prints cfg = true ->
  Spec.frame_range cfg = Ok range ->
  Spec.range_prints cfg range = true ->
  Spec.extra_tokens p cfg = Ok extra ->
  build_command p cfg
  = Ok (Spec.tokens p cfg range extra, Spec.display p (Spec.tokens p cfg range extra)).
Proof.
  intros Hscene Hout Hres Hrange Hprints Hextra.
  rewrite build_command_steps. unfold Spec.command.
  rewrite Hscene, Hout, Hres, Hrange. simpl. rewrite Hprints, Hextra. reflexivity.
Qed.

(** Conversely, a built command comes from set paths, a valid frame range,
    numbers that can be written out and extra arguments that split. *)
Lemma build_command_Ok_inv (p : string) (cfg : RenderConfig)
    (cmd : list string) (pretty : string) :
  build_command p cfg = Ok (cmd, pretty) ->
  Py.truthy cfg.(scene_path) = true /\
  Py.truthy cfg.(output_dir) = true /\
  Spec.resolution_prints cfg = true /\
  exists range extra,
    Spec.frame_range cfg = Ok range /\
    Spec.range_prints cfg range = true /\
    Spec.extra_tokens p cfg = Ok extra /\
    cmd = Spec.tokens p cfg range extra /\
    pretty = Spec.display p cmd.
Proof.
  rewrite build_command_steps. unfold Spec.command.
  destruct (Py.truthy (scene_path cfg)); simpl; [| discriminate].
  destruct (Py.truthy (output_dir cfg)); simpl; [| discriminate].
  destruct (Spec.resolution_prints cfg); simpl; [| discriminate].
  intros H. apply bind_Ok in H as (range & Hrange & H).
  destruct (Spec.range_prints cfg range) eqn:Hprints; simpl in H; [| discriminate].
  apply bind_Ok in H as (extra & Hextra & H).
  injection H as <- <-. eauto 12.
Qed.

(** The configs [build_command] accepts. *)
Lemma build_command_accepts_iff (p : string) (cfg : RenderConfig) :
  (exists r, build_command p cfg = Ok r) <->
  Py.truthy cfg.(scene_path) = true
  /\ Py.truthy cfg.(output_dir) = true
  /\ Spec.resolution_prints cfg = true
  /\ (exists range, Spec.frame_range cfg = Ok range /\ Spec.range_prints cfg range = true)
  /\ (exists extra, Spec.extra_tokens p cfg = Ok extra).
Proof.
  split.
  - intros [[cmd pretty] H].
    apply build_command_Ok_inv in H
      as (Hscene & Hout & Hres & range & extra & Hrange & Hprints & Hextra & _).
    eauto 10.
  - intros (Hscene & Hout & Hres & (range & Hrange & Hprints) & [extra Hextra]).
    eexists. apply (build_command_accepts p cfg range extra); assumption.
Qed.

(** ** Claims on [build_command] *)

(** C1. Whenever [build_command] accepts a config, that is returns a token
    list, the list is made of these segments in this order: the executable
    if one is set; the renderer flag and name if force-renderer is true and
    a name is set; the render flag and the scene path; the output-path flag
    and the stem; the format flag and format if override-format is true and
    a format is set; the resolution flag, width and height if
    override-resolution is true; the frame-range flag and its two values;
    the thread flag and count; the tokens of the extra arguments. The two
    frame values are those of a valid frame range and the last segment is
    the split of the extra arguments. *)
Theorem build_command_token_order (p : string) (cfg : RenderConfig)
    (cmd : list string) (pretty : string) :
  build_command p cfg = Ok (cmd, pretty) ->
  exists (first last : Z) (extra : list string),
    Py.truthy cfg.(scene_path) = true /\
    Py.truthy cfg.(output_dir) = true /\
    Spec.frame_range cfg = Ok (first, last) /\
    Spec.extra_tokens p cfg = Ok extra /\
    cmd =
      (if Py.truthy cfg.(c4d_cmd) then [cfg.(c4d_cmd)] else [])
      ++ (if cfg.(force_renderer) && Py.truthy cfg.(renderer)
          then ["-renderer"; cfg.(renderer)] else [])
      ++ ["-render"; cfg.(scene_path)]
      ++ ["-oimage"; os_path_join p cfg.(output_dir) (Py.or_else cfg.(base_name) "frame_")]
      ++ (if cfg.(override_format) && Py.truthy cfg.(format)
          then ["-ofmt"; cfg.(format)] else [])
      ++ (if cfg.(override_res)
          then ["-ores"; Py.decimal cfg.(res_w); Py.decimal cfg.(res_h)] else [])
      ++ ["-frame"; Py.decimal first; Py.decimal last]
      ++ ["-threads"; Py.decimal cfg.(threads)]
      ++ extra.
Proof.
  intros H. apply build_command_Ok_inv in H
    as (Hscene & Hout & _ & [first last] & extra & Hrange & _ & Hextra & -> & _).
  exists first, last, extra. repeat (split; [assumption |]).
  unfold Spec.tokens, Spec.leading_tokens.
  rewrite <- !app_assoc. reflexivity.
Qed.

Lemma build_command_token_order_witness :
  exists (first last : Z) (extra : list string),
    Py.truthy "/shots/s.c4d" = true /\
    Py.truthy "/renders" = true /\
    Spec.frame_range full_config = Ok (first, last) /\
    Spec.extra_tokens "linux" full_config = Ok extra /\
    [ "/opt/maxon/Commandline"; "-renderer"; "Redshift"; "-render"; "/shots/s.c4d";
      "-oimage"; "/renders/frame_"; "-ofmt"; "tif"; "-ores"; "1280"; "720";
      "-frame"; "10"; "20"; "-threads"; "8"; "--foo"; "bar baz" ] =
      ["/opt/maxon/Commandline"]
      ++ ["-renderer"; "Redshift"]
      ++ ["-render"; "/shots/s.c4d"]
      ++ ["-oimage"; os_path_join "linux" "/renders" (Py.or_else EmptyString "frame_")]
      ++ ["-ofmt"; "tif"]
      ++ ["-ores"; Py.decimal 1280; Py.decimal 720]
      ++ ["-frame"; Py.decimal first; Py.decimal last]
      ++ ["-threads"; Py.decimal 8]
      ++ extra.
Proof.
  apply (build_command_token_order "linux" full_config _
           (Spec.display "linux"
              [ "/opt/maxon/Commandline"; "-renderer"; "Redshift"; "-render"; "/shots/s.c4d";
                "-oimage"; "/renders/frame_"; "-ofmt"; "tif"; "-ores"; "1280"; "720";
                "-frame"; "10"; "20"; "-threads"; "8"; "--foo"; "bar baz" ])).
  vm_compute. reflexivity.
Defined.

(** C4. A config whose scene path is empty, and one whose output directory
    is empty, is rejected with a validation error: the call raises, so no
    token list, not even a partial one, is returned. The message is that of
    the scene path when the scene path is empty, and that of the output
    directory otherwise. *)
Theorem build_command_requires_paths (p : string) (cfg : RenderConfig) :
  cfg.(scene_path) = EmptyString \/ cfg.(output_dir) = EmptyString ->
  build_command p cfg =
    Raise (ValueError (if Py.truthy cfg.(scene_path)
                       then "Output directory is required."
                       else "Scene path is required.")).
Proof.
  intros H. rewrite build_command_steps. unfold Spec.command.
  destruct (Py.truthy (scene_path cfg)) eqn:Hscene; simpl; [| reflexivity].
  destruct H as [H | H].
  - rewrite H in Hscene. discriminate.
  - rewrite H. reflexivity.
Qed.

Lemma build_command_requires_paths_witness :
  build_command "linux" (set_paths EmptyString "/out" full_config)
    = Raise (ValueError "Scene path is required.")
  /\ build_command "win32" (set_paths "/s.c4d" EmptyString full_config)
    = Raise (ValueError "Output directory is required.").
Proof.
  split.
  - apply (build_command_requires_paths "linux" (set_paths EmptyString "/out" full_config)).
    left. reflexivity.
  - apply (build_command_requires_paths "win32" (set_paths "/s.c4d" EmptyString full_config)).
    right. reflexivity.
Defined.

(** C10. When the scene path and the output directory are both empty, the
    error raised is the one of the scene path, whose check comes first, and
    not the one of the output directory. *)
Theorem scene_path_error_comes_first (p : string) (cfg : RenderConfig) :
  cfg.(scene_path) = EmptyString ->
  cfg.(output_dir) = EmptyString ->
  build_command p cfg = Raise (ValueError "Scene path is required.")
  /\ build_command p cfg <> Raise (ValueError "Output directory is required.").
Proof.
  intros Hscene _.
  assert (H : build_command p cfg = Raise (ValueError "Scene path is required.")).
  { rewrite build_command_steps. unfold Spec.command. rewrite Hscene. reflexivity. }
  split; [exact H |]. rewrite H. discriminate.
Qed.

Lemma scene_path_error_comes_first_witness :
  build_command "darwin" (set_paths EmptyString EmptyString full_config)
    = Raise (ValueError "Scene path is required.")
  /\ build_command "darwin" (set_paths EmptyString EmptyString full_config)
    <> Raise (ValueError "Output directory is required.").
Proof.
  apply (scene_path_error_comes_first "darwin" (set_paths EmptyString EmptyString full_config));
    reflexivity.
Defined.

Lemma occurs_in_app_r (sub pre l : list string) :
  occurs_in sub l = true -> occurs_in sub (pre ++ l) = true.
Proof.
  intros H. induction pre as [| x pre IH]; simpl; [exact H |].
  rewrite IH. apply orb_true_r.
Qed.

(** The fields [set_extra_args] leaves alone decide the frame range and the
    leading tokens. *)
Lemma frame_range_set_extra_args (s : string) (cfg : RenderConfig) :
  Spec.frame_range (set_extra_args s cfg) = Spec.frame_range cfg.
Proof. reflexivity. Qed.

Lemma tokens_set_extra_args (p s : string) (cfg : RenderConfig)
    (range : Z * Z) (extra : list string) :
  Spec.tokens p (set_extra_args s cfg) range extra = Spec.tokens p cfg range extra.
Proof. reflexivity. Qed.

Lemma tokens_app (p : string) (cfg : RenderConfig) (range : Z * Z) (extra : list string) :
  Spec.tokens p cfg range extra = Spec.tokens p cfg range [] ++ extra.
Proof. unfold Spec.tokens. rewrite <- !app_assoc. reflexivity. Qed.

(** C2, amended. With use-duration true, both paths set, a resolution
    (when it is overridden) and a thread count that can be written out, a
    finite product [duration_seconds * fps] (so that [round] converts it to
    an int), and extra arguments that are blank or split without error, the
    command is built and its frame-range tokens are the flag, ["0"] and the
    decimal numeral of [round(duration_seconds * fps)], which can always be
    written out; the fields [start_frame] and [end_frame] play no part. *)
Theorem duration_frame_range (p : string) (cfg : RenderConfig)
    (product : float) (extra : list string) :
  cfg.(use_duration) = true ->
  Py.truthy cfg.(scene_path) = true ->
  Py.truthy cfg.(output_dir) = true ->
  Spec.resolution_prints cfg = true ->
  Py.printable cfg.(threads) = true ->
  Py.float_mul_int cfg.(duration_seconds) cfg.(fps) = Ok product ->
  Py.isfinite product = true ->
  Spec.extra_tokens p cfg = Ok extra ->
  exists total pretty,
    Py.round product = Ok total
    /\ build_command p cfg =
         Ok (Spec.leading_tokens p cfg
             ++ ["-frame"; "0"; Py.decimal total]
             ++ ["-threads"; Py.decimal cfg.(threads)]
             ++ extra,
             pretty).
Proof.
  intros Hmode Hscene Hout Hres Hthreads Hprod Hfinite Hextra.
  apply round_isfinite in Hfinite as [total Hround].
  exists total. eexists. split; [exact Hround |].
  apply (build_command_accepts p cfg (0, total) extra Hscene Hout Hres); [| | exact Hextra].
  - unfold Spec.frame_range. rewrite Hmode, Hprod. simpl. rewrite Hround. reflexivity.
  - unfold Spec.range_prints. cbn [fst snd].
    rewrite (round_printable _ _ Hround), Hthreads. reflexivity.
Qed.

Lemma duration_frame_range_witness :
  exists total pretty,
    Py.round 0x1.2cp+5 = Ok total
    /\ build_command "linux" (set_duration 0x1.8p+0 25 full_config) =
         Ok (Spec.leading_tokens "linux" (set_duration 0x1.8p+0 25 full_config)
             ++ ["-frame"; "0"; Py.decimal total]
             ++ ["-threads"; Py.decimal 8]
             ++ ["--foo"; "bar baz"],
             pretty).
Proof.
  apply (duration_frame_range "linux" (set_duration 0x1.8p+0 25 full_config)
           0x1.2cp+5 ["--foo"; "bar baz"]); vm_compute; reflexivity.
Defined.

(** C2 as stated fails: with use-duration true and both paths set, the call
    raises when the extra arguments hold an unclosed quote, when the
    product overflows to infinity, and when the thread count, [10 ^ 4300]
    here, has more digits than [str] writes out. *)
Lemma duration_mode_can_raise :
  let unclosed := set_extra_args dquote (example_config EmptyString) in
  let overflow := set_duration 0x1p+1023 2 (example_config EmptyString) in
  let digits := set_threads Py.str_limit (example_config EmptyString) in
  (use_duration unclosed = true
   /\ Py.truthy (scene_path unclosed) = true
   /\ Py.truthy (output_dir unclosed) = true
   /\ build_command "linux" unclosed = Raise (ValueError "No closing quotation"))
  /\ (use_duration overflow = true
      /\ Py.truthy (scene_path overflow) = true
      /\ Py.truthy (output_dir overflow) = true
      /\ build_command "linux" overflow
         = Raise (OverflowError "cannot convert float infinity to integer"))
  /\ (use_duration digits = true
      /\ Py.truthy (scene_path digits) = true
      /\ Py.truthy (output_dir digits) = true
      /\ build_command "linux" digits = Raise Py.digits_error).
Proof. vm_compute. repeat split; reflexivity. Qed.

(** C3, amended. With use-duration false and both paths set: if the end
    frame is below the start frame the call raises a [ValueError], the
    validation error of the frame range unless the resolution is overridden
    by a number that cannot be written out; otherwise, when the resolution
    (if overridden), the two frames and the thread count can be written out
    and the extra arguments are blank or split without error, the command
    is built and its frame-range tokens are the flag and the decimal
    numerals of the start frame and of the end frame. *)
Theorem explicit_frame_range (p : string) (cfg : RenderConfig) :
  cfg.(use_duration) = false ->
  Py.truthy cfg.(scene_path) = true ->
  Py.truthy cfg.(output_dir) = true ->
  (cfg.(end_frame) < cfg.(start_frame) ->
     exists msg,
       build_command p cfg = Raise (ValueError msg)
       /\ (Spec.resolution_prints cfg = true -> msg = "End frame must be >= start frame."))
  /\ (cfg.(start_frame) <= cfg.(end_frame) ->
      Spec.resolution_prints cfg = true ->
      Py.printable cfg.(start_frame) = true ->
      Py.printable cfg.(end_frame) = true ->
      Py.printable cfg.(threads) = true ->
      forall extra, Spec.extra_tokens p cfg = Ok extra ->
      exists pretty,
        build_command p cfg =
          Ok (Spec.leading_tokens p cfg
              ++ ["-frame"; Py.decimal cfg.(start_frame); Py.decimal cfg.(end_frame)]
              ++ ["-threads"; Py.decimal cfg.(threads)]
              ++ extra,
              pretty)).
Proof.
  intros Hmode Hscene Hout. split.
  - intros Hlt. rewrite build_command_steps. unfold Spec.command, Spec.frame_range.
    rewrite Hscene, Hout, Hmode. simpl.
    apply Z.ltb_lt in Hlt. rewrite Hlt.
    destruct (Spec.resolution_prints cfg); simpl; eexists; (split; [reflexivity |]).
    + reflexivity.
    + discriminate.
  - intros Hle Hres Hstart Hend Hthreads extra Hextra. eexists.
    apply (build_command_accepts p cfg (start_frame cfg, end_frame cfg) extra Hscene Hout Hres);
      [| | exact Hextra].
    + unfold Spec.frame_range. rewrite Hmode.
      apply Z.ltb_ge in Hle. rewrite Hle. reflexivity.
    + unfold Spec.range_prints. cbn [fst snd]. rewrite Hstart, Hend, Hthreads. reflexivity.
Qed.

Lemma explicit_frame_range_witness :
  build_command "linux" (set_frames 20 10 full_config)
    = Raise (ValueError "End frame must be >= start frame.")
  /\ exists pretty,
      build_command "linux" (set_frames 7 7 full_config) =
        Ok (Spec.leading_tokens "linux" (set_frames 7 7 full_config)
            ++ ["-frame"; Py.decimal 7; Py.decimal 7]
            ++ ["-threads"; Py.decimal 8]
            ++ ["--foo"; "bar baz"],
            pretty).
Proof.
  split.
  - destruct (proj1 (explicit_frame_range "linux" (set_frames 20 10 full_config)
                       eq_refl eq_refl eq_refl)) as (msg & Hraise & Hmsg); [simpl; lia |].
    rewrite Hraise, Hmsg; [reflexivity | vm_compute; reflexivity].
  - apply (explicit_frame_range "linux" (set_frames 7 7 full_config));
      [reflexivity | reflexivity | reflexivity | simpl; lia | vm_compute; reflexivity ..].
Defined.

(** C3 as stated fails: with use-duration false, both paths set and the end
    frame not below the start frame, the call raises when the extra
    arguments hold an unclosed quote, and when the end frame, [10 ^ 4300]
    here, has more digits than [str] writes out. *)
Lemma explicit_frames_can_raise :
  let cfg := set_extra_args "'a" (set_frames 0 100 full_config) in
  let digits := set_frames 0 Py.str_limit full_config in
  (use_duration cfg = false
   /\ Py.truthy (scene_path cfg) = true
   /\ Py.truthy (output_dir cfg) = true
   /\ (end_frame cfg <? start_frame cfg) = false
   /\ build_command "linux" cfg = Raise (ValueError "No closing quotation"))
  /\ (use_duration digits = false
      /\ Py.truthy (scene_path digits) = true
      /\ Py.truthy (output_dir digits) = true
      /\ (end_frame digits <? start_frame digits) = false
      /\ build_command "linux" digits = Raise Py.digits_error).
Proof. vm_compute. repeat split; reflexivity. Qed.

(** C8, amended. With an empty executable path, both paths set, a valid
    frame range, numbers (the resolution if overridden, the two frames, the
    thread count) that can be written out and extra arguments that are
    blank or split without error, the command is built; its first token is
    the renderer flag or, when that is not emitted, the render flag; and it
    is the command of the same config with an executable, less that leading
    token. *)
Theorem empty_executable_is_omitted (p : string) (cfg : RenderConfig)
    (range : Z * Z) (extra : list string) :
  cfg.(c4d_cmd) = EmptyString ->
  Py.truthy cfg.(scene_path) = true ->
  Py.truthy cfg.(output_dir) = true ->
  Spec.resolution_prints cfg = true ->
  Spec.frame_range cfg = Ok range ->
  Spec.range_prints cfg range = true ->
  Spec.extra_tokens p cfg = Ok extra ->
  exists cmd pretty,
    build_command p cfg = Ok (cmd, pretty)
    /\ head cmd = Some (if cfg.(force_renderer) && Py.truthy cfg.(renderer)
                        then "-renderer" else "-render")
    /\ forall exe, Py.truthy exe = true ->
         exists pretty', build_command p (set_c4d_cmd exe cfg) = Ok (exe :: cmd, pretty').
Proof.
  intros Hexe Hscene Hout Hres Hrange Hprints Hextra.
  exists (Spec.tokens p cfg range extra), (Spec.display p (Spec.tokens p cfg range extra)).
  split; [apply build_command_accepts; assumption |]. split.
  - unfold Spec.tokens, Spec.leading_tokens. rewrite Hexe. simpl.
    destruct (force_renderer cfg && Py.truthy (renderer cfg)); reflexivity.
  - intros exe Htruthy. eexists.
    rewrite (build_command_accepts p (set_c4d_cmd exe cfg) range extra);
      [| exact Hscene | exact Hout | exact Hres | exact Hrange | exact Hprints | exact Hextra].
    unfold Spec.tokens at 1 3. unfold Spec.leading_tokens. simpl.
    rewrite Htruthy, Hexe. reflexivity.
Qed.

Lemma empty_executable_is_omitted_witness :
  exists cmd pretty,
    build_command "linux" (set_c4d_cmd EmptyString full_config) = Ok (cmd, pretty)
    /\ head cmd = Some "-renderer"
    /\ forall exe, Py.truthy exe = true ->
         exists pretty',
           build_command "linux" (set_c4d_cmd exe (set_c4d_cmd EmptyString full_config))
           = Ok (exe :: cmd, pretty').
Proof.
  apply (empty_executable_is_omitted "linux" (set_c4d_cmd EmptyString full_config)
           (10, 20) ["--foo"; "bar baz"]); vm_compute; reflexivity.
Defined.

(** C8 as stated fails: with an empty executable path, both paths set and a
    valid frame range, the call raises when the extra arguments end in a
    lone backslash, and when the thread count, [10 ^ 4300] here, has more
    digits than [str] writes out. *)
Lemma empty_executable_can_raise :
  let cfg := set_extra_args "-v \" (example_config EmptyString) in
  let digits := set_threads Py.str_limit (example_config EmptyString) in
  (c4d_cmd cfg = EmptyString
   /\ Py.truthy (scene_path cfg) = true
   /\ Py.truthy (output_dir cfg) = true
   /\ Spec.frame_range cfg = Ok (0, 50)
   /\ build_command "linux" cfg = Raise (ValueError "No escaped character"))
  /\ (c4d_cmd digits = EmptyString
      /\ Py.truthy (scene_path digits) = true
      /\ Py.truthy (output_dir digits) = true
      /\ Spec.frame_range digits = Ok (0, 50)
      /\ build_command "linux" digits = Raise Py.digits_error).
Proof. vm_compute. repeat split; reflexivity. Qed.

Lemma example_config_defaults (p : string) (ex : string -> bool) :
  agrees_on_open_fields (example_config (guess_c4d_command p ex)) (RenderConfig_init p ex).
Proof. unfold agrees_on_open_fields. repeat split; reflexivity. Qed.

(** C6, amended. On a platform other than Windows, the example config
    (whatever its executable path) is built into the executable, if set,
    followed by thirteen tokens, among them the frame-range flag with ["0"]
    and ["50"], the output-path flag with the stem ["/out/f_"], and the
    format flag with ["exr"]. *)
Theorem example_command (p c4d : string) :
  on_windows p = false ->
  exists cmd pretty,
    build_command p (example_config c4d) = Ok (cmd, pretty)
    /\ cmd = (if Py.truthy c4d then [c4d] else [])
             ++ ["-renderer"; "Redshift"; "-render"; "/s.c4d"; "-oimage"; "/out/f_";
                 "-ofmt"; "exr"; "-frame"; "0"; "50"; "-threads"; "0"]
    /\ occurs_in ["-frame"; "0"; "50"] cmd = true
    /\ occurs_in ["-oimage"; "/out/f_"] cmd = true
    /\ occurs_in ["-ofmt"; "exr"] cmd = true.
Proof.
  intros Hposix. eexists. eexists. split.
  - apply (build_command_accepts p (example_config c4d) (0, 50) []);
      vm_compute; reflexivity.
  - assert (Hcmd : Spec.tokens p (example_config c4d) (0, 50) []
                   = (if Py.truthy c4d then [c4d] else [])
                     ++ ["-renderer"; "Redshift"; "-render"; "/s.c4d"; "-oimage"; "/out/f_";
                         "-ofmt"; "exr"; "-frame"; "0"; "50"; "-threads"; "0"]).
    { unfold Spec.tokens, Spec.leading_tokens, os_path_join. rewrite Hposix.
      rewrite <- !app_assoc. reflexivity. }
    rewrite Hcmd. split; [reflexivity |].
    repeat split; apply occurs_in_app_r; reflexivity.
Qed.

Lemma example_command_witness :
  exists cmd pretty,
    build_command "linux" (example_config EmptyString) = Ok (cmd, pretty)
    /\ cmd = []
             ++ ["-renderer"; "Redshift"; "-render"; "/s.c4d"; "-oimage"; "/out/f_";
                 "-ofmt"; "exr"; "-frame"; "0"; "50"; "-threads"; "0"]
    /\ occurs_in ["-frame"; "0"; "50"] cmd = true
    /\ occurs_in ["-oimage"; "/out/f_"] cmd = true
    /\ occurs_in ["-ofmt"; "exr"] cmd = true.
Proof. apply (example_command "linux" EmptyString). reflexivity. Defined.

(** C6 as stated fails on Windows, where [os.path.join] joins with a
    backslash: the stem is ["/out\f_"], and ["/out/f_"] does not follow the
    output-path flag. *)
Lemma example_command_on_windows :
  exists pretty,
    build_command "win32" (example_config EmptyString) =
      Ok (["-renderer"; "Redshift"; "-render"; "/s.c4d"; "-oimage"; "/out\f_";
           "-ofmt"; "exr"; "-frame"; "0"; "50"; "-threads"; "0"], pretty)
    /\ occurs_in ["-oimage"; "/out/f_"]
         ["-renderer"; "Redshift"; "-render"; "/s.c4d"; "-oimage"; "/out\f_";
          "-ofmt"; "exr"; "-frame"; "0"; "50"; "-threads"; "0"] = false.
Proof. eexists. vm_compute. split; reflexivity. Qed.

(** C7. When the extra arguments are not blank (some character of them is
    not white space), the command is the one of the same config without
    extra arguments followed by the tokens [shlex.split] yields for them,
    in POSIX mode off Windows; an error of the split, like one of the
    validation, is raised instead. When they are blank (empty, or white
    space only), the command is the one without extra arguments. The
    string [--foo "bar baz"] splits in POSIX mode into the two tokens
    [--foo] and [bar baz], which are then the last two of the command.
    And the command is built: with both paths set, a valid frame range and
    numbers that can be written out, the config without extra arguments
    gives the tokens up to the thread count, blank extra arguments give
    the same, and extra arguments that split into [toks] give these tokens
    followed by [toks]. *)
Theorem extra_args_are_appended (p : string) (cfg : RenderConfig) :
  (Py.any Py.nonspace cfg.(extra_args) = true ->
   build_command p cfg =
     '(cmd, _) ← build_command p (set_extra_args EmptyString cfg);
     toks ← shlex.split cfg.(extra_args) (negb (on_windows p));
     Ok (cmd ++ toks, Spec.display p (cmd ++ toks)))
  /\ (Py.any Py.nonspace cfg.(extra_args) = false ->
      build_command p cfg = build_command p (set_extra_args EmptyString cfg))
  /\ (cfg.(extra_args) = "--foo " +:+ dquote +:+ "bar baz" +:+ dquote ->
      on_windows p = false ->
      forall cmd pretty,
        build_command p (set_extra_args EmptyString cfg) = Ok (cmd, pretty) ->
        build_command p cfg
        = Ok (cmd ++ ["--foo"; "bar baz"], Spec.display p (cmd ++ ["--foo"; "bar baz"])))
  /\ shlex.split ("--foo " +:+ dquote +:+ "bar baz" +:+ dquote) true = Ok ["--foo"; "bar baz"]
  /\ (forall range,
        Py.truthy cfg.(scene_path) = true ->
        Py.truthy cfg.(output_dir) = true ->
        Spec.resolution_prints cfg = true ->
        Spec.frame_range cfg = Ok range ->
        Spec.range_prints cfg range = true ->
        let cmd := Spec.tokens p cfg range [] in
        build_command p (set_extra_args EmptyString cfg) = Ok (cmd, Spec.display p cmd)
        /\ (Py.any Py.nonspace cfg.(extra_args) = false ->
            build_command p cfg = Ok (cmd, Spec.display p cmd))
        /\ (forall toks,
              Py.any Py.nonspace cfg.(extra_args) = true ->
              shlex.split cfg.(extra_args) (negb (on_windows p)) = Ok toks ->
              build_command p cfg = Ok (cmd ++ toks, Spec.display p (cmd ++ toks)))).
Proof.
  assert (Hsplit : Py.any Py.nonspace cfg.(extra_args) = true ->
    build_command p cfg =
      '(cmd, _) ← build_command p (set_extra_args EmptyString cfg);
      toks ← shlex.split cfg.(extra_args) (negb (on_windows p));
      Ok (cmd ++ toks, Spec.display p (cmd ++ toks))).
  { intros Hblank. rewrite <- truthy_strip in Hblank.
    rewrite !build_command_steps. unfold Spec.command.
    change (scene_path (set_extra_args EmptyString cfg)) with (scene_path cfg).
    change (output_dir (set_extra_args EmptyString cfg)) with (output_dir cfg).
    change (Spec.resolution_prints (set_extra_args EmptyString cfg))
      with (Spec.resolution_prints cfg).
    destruct (Py.truthy (scene_path cfg)); simpl; [| reflexivity].
    destruct (Py.truthy (output_dir cfg)); simpl; [| reflexivity].
    destruct (Spec.resolution_prints cfg); simpl; [| reflexivity].
    rewrite frame_range_set_extra_args.
    destruct (Spec.frame_range cfg) as [range |]; simpl; [| reflexivity].
    change (Spec.range_prints (set_extra_args EmptyString cfg) range)
      with (Spec.range_prints cfg range).
    destruct (Spec.range_prints cfg range); simpl; [| reflexivity].
    unfold Spec.extra_tokens at 1. rewrite Hblank.
    destruct (shlex.split _ _) as [toks |]; simpl; [| reflexivity].
    rewrite tokens_set_extra_args, <- tokens_app. reflexivity. }
  assert (Hnone : Py.any Py.nonspace cfg.(extra_args) = false ->
    build_command p cfg = build_command p (set_extra_args EmptyString cfg)).
  { intros Hblank. rewrite <- truthy_strip in Hblank.
    rewrite !build_command_steps. unfold Spec.command.
    change (scene_path (set_extra_args EmptyString cfg)) with (scene_path cfg).
    change (output_dir (set_extra_args EmptyString cfg)) with (output_dir cfg).
    change (Spec.resolution_prints (set_extra_args EmptyString cfg))
      with (Spec.resolution_prints cfg).
    rewrite frame_range_set_extra_args.
    unfold Spec.extra_tokens. rewrite Hblank. simpl.
    destruct (Py.truthy (scene_path cfg)), (Py.truthy (output_dir cfg)),
      (Spec.resolution_prints cfg), (Spec.frame_range cfg); reflexivity. }
  split; [exact Hsplit |]. split; [exact Hnone |]. split; [| split].
  - intros Hfoo Hposix cmd pretty Hcmd.
    rewrite Hsplit by (rewrite Hfoo; reflexivity).
    rewrite Hcmd, Hfoo, Hposix. reflexivity.
  - reflexivity.
  - intros range Hscene Hout Hres Hrange Hprints cmd.
    assert (Hbase : build_command p (set_extra_args EmptyString cfg)
                    = Ok (cmd, Spec.display p cmd)).
    { apply (build_command_accepts p (set_extra_args EmptyString cfg) range []);
        [exact Hscene | exact Hout | exact Hres | exact Hrange | exact Hprints | reflexivity]. }
    split; [exact Hbase |]. split.
    + intros Hblank. rewrite (Hnone Hblank). exact Hbase.
    + intros toks Hblank Htoks. rewrite (Hsplit Hblank), Hbase. simpl.
      rewrite Htoks. reflexivity.
Qed.

Lemma extra_args_are_appended_witness :
  build_command "linux" full_config =
    ('(cmd, _) ← build_command "linux" (set_extra_args EmptyString full_config);
     toks ← shlex.split full_config.(extra_args) (negb (on_windows "linux"));
     Ok (cmd ++ toks, Spec.display "linux" (cmd ++ toks)))
  /\ build_command "linux" (set_extra_args "   " full_config)
     = build_command "linux" (set_extra_args EmptyString (set_extra_args "   " full_config))
  /\ (let cmd :=
        [ "/opt/maxon/Commandline"; "-renderer"; "Redshift"; "-render"; "/shots/s.c4d";
          "-oimage"; "/renders/frame_"; "-ofmt"; "tif"; "-ores"; "1280"; "720";
          "-frame"; "10"; "20"; "-threads"; "8" ] in
      build_command "linux" (set_extra_args EmptyString full_config)
      = Ok (cmd, Spec.display "linux" cmd)
      /\ build_command "linux" full_config
         = Ok (cmd ++ ["--foo"; "bar baz"], Spec.display "linux" (cmd ++ ["--foo"; "bar baz"]))).
Proof.
  split; [| split].
  - apply (proj1 (extra_args_are_appended "linux" full_config)). reflexivity.
  - apply (proj1 (proj2 (extra_args_are_appended "linux" (set_extra_args "   " full_config)))).
    reflexivity.
  - destruct (proj2 (proj2 (proj2 (proj2 (extra_args_are_appended "linux" full_config))))
               (10, 20)) as (Hbase & _ & Hadd);
      [vm_compute; reflexivity .. |].
    split; [exact Hbase |].
    apply (Hadd ["--foo"; "bar baz"]); vm_compute; reflexivity.
Defined.

(** ** Presets *)

Lemma of_vars_vars (cfg : RenderConfig) : of_vars (vars cfg) = Some cfg.
Proof. destruct cfg. reflexivity. Qed.

(** Every instance has the same attributes. *)
Lemma dom_vars (cfg cfg' : RenderConfig) : dom (vars cfg) = dom (vars cfg').
Proof. unfold vars. rewrite !dom_list_to_map_L. reflexivity. Qed.

(** Updating a dict with one that has all its keys replaces it. *)
Lemma update_all_keys (d defaults : gmap string value) :
  dom defaults ⊆ dom d -> d ∪ defaults = d.
Proof.
  intros Hdom. apply map_eq. intros k. rewrite lookup_union.
  destruct (d !! k) as [v |] eqn:Hk.
  - destruct (defaults !! k); reflexivity.
  - apply not_elem_of_dom in Hk.
    assert (Hk' : k ∉ dom defaults) by (intros Hin; apply Hk, Hdom, Hin).
    apply not_elem_of_dom in Hk'. rewrite Hk'. reflexivity.
Qed.

(** A preset without entries leaves the defaults. *)
Lemma from_dict_empty (p : string) (ex : string -> bool) :
  from_dict p ex ∅ = Some (RenderConfig_init p ex).
Proof. unfold from_dict. rewrite (left_id_L ∅ (∪)). apply of_vars_vars. Qed.

(** C5. A config serialized with [to_dict] and read back with [from_dict]
    is the config itself, field for field, whatever the values of its
    fields and whatever the defaults of the environment it is read in. *)
Theorem from_dict_to_dict (p : string) (ex : string -> bool) (cfg : RenderConfig) :
  from_dict p ex (to_dict cfg) = Some cfg.
Proof.
  unfold from_dict, to_dict.
  rewrite update_all_keys.
  - apply of_vars_vars.
  - rewrite (dom_vars (RenderConfig_init p ex) cfg). reflexivity.
Qed.

(** ** The process runner *)

Section Sinks.

Context {St : Type} (on_output : string -> St -> St) (on_done : Z -> St -> St).

Lemma run_callbacks_app (l1 l2 : list callback) (s : St) :
  run_callbacks on_output on_done (l1 ++ l2) s
  = run_callbacks on_output on_done l2 (run_callbacks on_output on_done l1 s).
Proof. unfold run_callbacks. apply fold_left_app. Qed.

Lemma forward_lines (lines : list string) (s : St) :
  fold_left (fun s line => on_output line s) lines s
  = run_callbacks on_output on_done (map output_call lines) s.
Proof.
  revert s. induction lines as [| line lines IH]; intros s; simpl; [reflexivity |].
  rewrite IH. reflexivity.
Qed.

End Sinks.

Lemma record_lines (lines : list string) (log : list callback) :
  fold_left (fun log line => record_output line log) lines log
  = log ++ map output_call lines.
Proof.
  revert log. induction lines as [| line lines IH]; intros log; simpl.
  - rewrite app_nil_r. reflexivity.
  - rewrite IH. unfold record_output. rewrite <- app_assoc. reflexivity.
Qed.

Lemma outputs_are_not_done (lines : list string) :
  List.filter is_done (map output_call lines) = [].
Proof. induction lines as [| line lines IH]; simpl; [reflexivity | exact IH]. Qed.

(** The calls the worker makes to the two sinks, whatever the launch
    does: on a launch failure, one call of the output sink with the error
    line, then the completion sink with code 1; for a started process, the
    output sink once per line read, in order, and then, when the stream was
    read to its end, the completion sink with the exit code. With any sinks
    the worker makes exactly these calls. When a call of the completion
    sink is made it is the only one and the last call; when the read of the
    output raises, none is made. *)
Lemma worker_calls (Popen : list string -> Popen_result) (cmd : list string) :
  let calls := worker Popen record_output record_done cmd [] in
  calls =
    match Popen cmd with
    | raises_FileNotFoundError =>
        [output_call ("ERROR: Commandline executable not found." +:+ newline); done_call 1]
    | raises_Exception e =>
        [output_call ("ERROR: " +:+ e +:+ newline); done_call 1]
    | started stdout (exits returncode) =>
        map output_call stdout ++ [done_call returncode]
    | started stdout read_raises =>
        map output_call stdout
    end
  /\ length (List.filter is_done calls)
     = match Popen cmd with
       | started _ read_raises => 0%nat
       | _ => 1%nat
       end
  /\ match Popen cmd with
     | started _ read_raises => True
     | _ => exists code, last calls = Some (done_call code)
     end
  /\ forall (St : Type) (on_output : string -> St -> St) (on_done : Z -> St -> St) (s : St),
       worker Popen on_output on_done cmd s = run_callbacks on_output on_done calls s.
Proof.
  unfold worker. destruct (Popen cmd) as [| e | stdout [returncode |]]; simpl.
  - repeat split; eauto.
  - repeat split; eauto.
  - rewrite record_lines. simpl. unfold record_done. repeat split.
    + rewrite List.filter_app, outputs_are_not_done. reflexivity.
    + exists returncode. apply last_snoc.
    + intros St on_output on_done s.
      rewrite run_callbacks_app, <- forward_lines. reflexivity.
  - rewrite record_lines. simpl. repeat split.
    + rewrite outputs_are_not_done. reflexivity.
    + intros St on_output on_done s. apply forward_lines.
Qed.

(** C9. The claim fails on a run whose output cannot be read to its end:
    for a process that is started, writes one line and then bytes that do
    not decode, the worker forwards the line and ends without a call of the
    completion sink, where the claim has exactly one call, the last of the
    run. *)
Theorem worker_ends_without_done :
  let Popen := fun _ : list string => started ["frame 1" +:+ newline] read_raises in
  let calls :=
    worker Popen record_output record_done ["Commandline"; "-render"; "/s.c4d"] [] in
  calls = [output_call ("frame 1" +:+ newline)]
  /\ length (List.filter is_done calls) = 0%nat
  /\ last calls = Some (output_call ("frame 1" +:+ newline)).
Proof. repeat split; reflexivity. Qed.

(** * Further properties *)

(** ** Strings *)

Lemma append_cons (c : ascii) (a b : string) : String c a +:+ b = String c (a +:+ b).
Proof. reflexivity. Qed.

Lemma append_nil_r (s : string) : s +:+ EmptyString = s.
Proof.
  induction s as [| c s IH]; [reflexivity |].
  rewrite append_cons, IH. reflexivity.
Qed.

Lemma append_assoc (a b c : string) : (a +:+ b) +:+ c = a +:+ (b +:+ c).
Proof.
  induction a as [| x a IH]; [reflexivity |].
  rewrite !append_cons, IH. reflexivity.
Qed.

Lemma chars_app (a b : string) : chars (a +:+ b) = chars a ++ chars b.
Proof.
  induction a as [| c a IH]; [reflexivity |].
  rewrite append_cons. simpl. rewrite IH. reflexivity.
Qed.

Lemma chars_quoted (x : string) (rest : list ascii) :
  chars ("'" +:+ x +:+ "'") ++ rest = "'"%char :: chars x ++ "'"%char :: rest.
Proof. rewrite !chars_app, <- !app_assoc. reflexivity. Qed.

Lemma chars_rev_app (s acc : string) :
  chars (String.rev_app s acc) = rev (chars s) ++ chars acc.
Proof.
  revert acc. induction s as [| c s IH]; intros acc; [reflexivity |].
  cbn [String.rev_app list_ascii_of_string]. rewrite IH. simpl.
  rewrite <- app_assoc. reflexivity.
Qed.

Lemma chars_rev (s : string) : chars (String.rev s) = rev (chars s).
Proof. unfold String.rev. rewrite chars_rev_app. apply app_nil_r. Qed.

Lemma chars_inj (a b : string) : chars a = chars b -> a = b.
Proof.
  intros H. rewrite <- (string_of_list_ascii_of_string a), H.
  apply string_of_list_ascii_of_string.
Qed.

Lemma string_rev_involutive (s : string) : String.rev (String.rev s) = s.
Proof. apply chars_inj. rewrite !chars_rev. apply rev_involutive. Qed.

(** ** [str.strip] *)

Lemma lstrip_clean (s : string) : starts_clean (Py.lstrip s) = true.
Proof.
  induction s as [| c s IH]; [reflexivity |]. simpl.
  destruct (Py.isspace c) eqn:Hc; [exact IH |].
  simpl. unfold Py.nonspace. rewrite Hc. reflexivity.
Qed.

Lemma lstrip_of_clean (s : string) : starts_clean s = true -> Py.lstrip s = s.
Proof.
  destruct s as [| c s]; [reflexivity |]. simpl. unfold Py.nonspace.
  destruct (Py.isspace c); [discriminate | reflexivity].
Qed.

Lemma starts_clean_rev (s : string) : starts_clean (String.rev s) = ends_clean (chars s).
Proof.
  unfold ends_clean. rewrite <- (string_rev_involutive s) at 2. rewrite chars_rev.
  destruct (String.rev s) as [| c r]; [reflexivity |].
  simpl. rewrite last_snoc. reflexivity.
Qed.

Lemma ends_clean_lstrip (s : string) :
  ends_clean (chars s) = true -> ends_clean (chars (Py.lstrip s)) = true.
Proof.
  induction s as [| c s IH]; [intros H; exact H |]. simpl.
  destruct (Py.isspace c) eqn:Hc; [| intros H; exact H].
  intros H. apply IH. unfold ends_clean in *.
  destruct s as [| d s].
  - simpl in H. unfold Py.nonspace in H. rewrite Hc in H. discriminate.
  - cbn [list_ascii_of_string] in H |- *. rewrite last_cons_cons in H. exact H.
Qed.

Lemma rstrip_clean (s : string) :
  starts_clean s = true -> starts_clean (Py.rstrip s) = true.
Proof.
  intros H. unfold Py.rstrip. rewrite starts_clean_rev.
  apply ends_clean_lstrip. rewrite <- starts_clean_rev, string_rev_involutive. exact H.
Qed.

Lemma lstrip_idem (s : string) : Py.lstrip (Py.lstrip s) = Py.lstrip s.
Proof. apply lstrip_of_clean, lstrip_clean. Qed.

Lemma rstrip_idem (s : string) : Py.rstrip (Py.rstrip s) = Py.rstrip s.
Proof. unfold Py.rstrip. rewrite string_rev_involutive, lstrip_idem. reflexivity. Qed.

(** Stripping twice is stripping once. *)
Lemma strip_idem (s : string) : Py.strip (Py.strip s) = Py.strip s.
Proof.
  unfold Py.strip.
  rewrite (lstrip_of_clean (Py.rstrip (Py.lstrip s))).
  - apply rstrip_idem.
  - apply rstrip_clean, lstrip_clean.
Qed.

(** ** The display string is read back by [shlex.split] *)

(** A safe character is no white space of the lexer, no quote, no escape. *)
Lemma safe_char_plain (c : ascii) :
  shlex.safe_char c = true ->
  Py.char_in c shlex.whitespace = false /\ Py.char_in c shlex.quotes = false
  /\ Py.char_in c shlex.escape = false.
Proof.
  destruct c as [[] [] [] [] [] [] [] []]; vm_compute; intros H;
    first [discriminate H | repeat split; reflexivity].
Qed.

Section PosixLexer.

Let R := shlex.read_tokens true.

(** In a word, safe characters are appended. *)
Lemma word_continues (w : string) (esc : shlex.lexstate) (q : bool) (tok : string)
    (rest : list ascii) :
  Py.any (fun c => negb (shlex.safe_char c)) w = false ->
  R shlex.in_word esc q tok (chars w ++ rest) = R shlex.in_word esc q (tok +:+ w) rest.
Proof.
  revert tok. induction w as [| c w IH]; intros tok Hsafe; simpl.
  - rewrite append_nil_r. reflexivity.
  - simpl in Hsafe. apply orb_false_iff in Hsafe as [Hc Hw].
    apply negb_false_iff in Hc. apply safe_char_plain in Hc as (Hws & Hq & He).
    unfold R. cbn [shlex.read_tokens]. rewrite Hws, Hq, He. cbn [andb].
    fold R. rewrite (IH _ Hw), append_assoc. reflexivity.
Qed.

(** Between single quotes every character is taken as it is, and the text
    for a single quote gives a single quote. *)
Lemma single_quoted_body (s : string) (esc : shlex.lexstate) (q : bool) (tok : string)
    (rest : list ascii) :
  R (shlex.in_quote "'") esc q tok (chars (Py.replace "'" quoted_quote s) ++ "'"%char :: rest)
  = R shlex.in_word esc true (tok +:+ s) rest.
Proof.
  revert q tok. induction s as [| c s IH]; intros q tok.
  - rewrite append_nil_r. reflexivity.
  - cbn [Py.replace]. destruct (Ascii.eqb c "'") eqn:Hc.
    + apply Ascii.eqb_eq in Hc as ->.
      rewrite chars_app, <- app_assoc.
      change (R (shlex.in_quote "'") esc true (tok +:+ "'")
                (chars (Py.replace "'" quoted_quote s) ++ "'"%char :: rest)
              = R shlex.in_word esc true (tok +:+ String "'" s) rest).
      rewrite IH, append_assoc. reflexivity.
    + rewrite chars_app, <- app_assoc.
      change (chars (String c "") ++ chars (Py.replace "'" quoted_quote s) ++ "'"%char :: rest)
        with (c :: chars (Py.replace "'" quoted_quote s) ++ "'"%char :: rest).
      unfold R. cbn [shlex.read_tokens]. rewrite Hc.
      replace (true && Py.char_in c shlex.escape && Py.char_in "'" shlex.escapedquotes)
        with false by (rewrite andb_comm; reflexivity).
      fold R. rewrite IH, append_assoc. reflexivity.
Qed.

(** A word ends at a space, or at the end of the input. *)
Lemma word_ends_at_space (esc : shlex.lexstate) (q : bool) (tok : string) (rest : list ascii) :
  Py.truthy tok || q = true ->
  R shlex.in_word esc q tok (" "%char :: rest)
  = toks ← R shlex.in_space shlex.in_space false EmptyString rest; Ok (tok :: toks).
Proof.
  intros H. unfold R. cbn [shlex.read_tokens].
  change (Py.char_in " " shlex.whitespace) with true. cbn [andb]. rewrite H.
  unfold shlex.emit. apply orb_true_iff in H.
  replace (negb q && negb (Py.truthy tok)) with false; [reflexivity |].
  symmetry. destruct H as [-> | ->]; [apply andb_false_r | reflexivity].
Qed.

Lemma word_ends_at_eof (esc : shlex.lexstate) (q : bool) (tok : string) :
  Py.truthy tok || q = true ->
  R shlex.in_word esc q tok [] = Ok [tok].
Proof.
  intros H. unfold R. cbn [shlex.read_tokens]. unfold shlex.emit.
  apply orb_true_iff in H.
  replace (negb q && negb (Py.truthy tok)) with false; [reflexivity |].
  symmetry. destruct H as [-> | ->]; [apply andb_false_r | reflexivity].
Qed.

(** From the start of a token, the quoted form of [s] is read up to a word
    that holds [s]. *)
Lemma quote_is_read (s : string) (rest : list ascii) :
  exists esc q,
    R shlex.in_space shlex.in_space false EmptyString (chars (shlex.quote s) ++ rest)
    = R shlex.in_word esc q s rest
    /\ Py.truthy s || q = true.
Proof.
  unfold shlex.quote. destruct s as [| c s].
  - exists shlex.in_space, true. split; reflexivity.
  - cbn [Py.truthy negb].
    destruct (Py.any (fun c => negb (shlex.safe_char c)) (String c s)) eqn:Hsafe; cbn [negb].
    + exists shlex.in_space, true. split; [| reflexivity].
      fold quoted_quote. rewrite chars_quoted.
      change (R (shlex.in_quote "'") shlex.in_space false EmptyString
                (chars (Py.replace "'" quoted_quote (String c s)) ++ "'"%char :: rest)
              = R shlex.in_word shlex.in_space true (String c s) rest).
      apply single_quoted_body.
    + exists shlex.in_space, false. split; [| reflexivity].
      pose proof Hsafe as Hc. cbn [Py.any] in Hc. apply orb_false_iff in Hc as [Hc Hs].
      apply negb_false_iff in Hc. apply safe_char_plain in Hc as (Hws & Hq & He).
      cbn [list_ascii_of_string app]. unfold R. cbn [shlex.read_tokens].
      rewrite Hws, Hq, He. cbn [andb].
      replace (if shlex.in_wordchars true c
               then shlex.read_tokens true shlex.in_word shlex.in_space false (String c "")
                      (chars s ++ rest)
               else shlex.read_tokens true shlex.in_word shlex.in_space false (String c "")
                      (chars s ++ rest))
        with (R shlex.in_word shlex.in_space false (String c "") (chars s ++ rest))
        by (destruct (shlex.in_wordchars true c); reflexivity).
      rewrite (word_continues s _ _ _ _ Hs). reflexivity.
Qed.

(** The tokens [shlex.quote] writes, joined by single spaces, are read back
    one for one. *)
Lemma quoted_tokens_split_back (l : list string) :
  shlex.split (Py.str_join " " (map shlex.quote l)) true = Ok l.
Proof.
  unfold shlex.split. fold R. induction l as [| x l IH]; [reflexivity |].
  destruct l as [| y l].
  - cbn [map Py.str_join String.concat].
    destruct (quote_is_read x []) as (esc & q & Hread & Hq).
    rewrite app_nil_r in Hread. rewrite Hread. apply word_ends_at_eof, Hq.
  - change (Py.str_join " " (map shlex.quote (x :: y :: l)))
      with (shlex.quote x +:+ " " +:+ Py.str_join " " (map shlex.quote (y :: l))).
    rewrite chars_app.
    destruct (quote_is_read x (chars (" " +:+ Py.str_join " " (map shlex.quote (y :: l)))))
      as (esc & q & Hread & Hq).
    rewrite Hread.
    change (chars (" " +:+ Py.str_join " " (map shlex.quote (y :: l))))
      with (" "%char :: chars (Py.str_join " " (map shlex.quote (y :: l)))).
    rewrite (word_ends_at_space _ _ _ _ Hq), IH. reflexivity.
Qed.

End PosixLexer.

(** X1. Off Windows, the display string of a built command, split by
    [shlex.split] in POSIX mode, gives back the token list: the preview
    shows the arguments the renderer is started with, whatever characters
    they hold. *)
Theorem display_splits_back (p : string) (cfg : RenderConfig)
    (cmd : list string) (pretty : string) :
  on_windows p = false ->
  build_command p cfg = Ok (cmd, pretty) ->
  shlex.split pretty true = Ok cmd.
Proof.
  intros Hposix H.
  apply build_command_Ok_inv in H as (_ & _ & _ & range & extra & _ & _ & _ & _ & ->).
  unfold Spec.display. rewrite Hposix. cbn [negb].
  apply quoted_tokens_split_back.
Qed.

Lemma display_splits_back_witness :
  shlex.split
    ("/opt/maxon/Commandline -renderer Redshift -render /shots/s.c4d -oimage /renders/frame_ "
     +:+ "-ofmt tif -ores 1280 720 -frame 10 20 -threads 8 --foo 'bar baz'") true
  = Ok [ "/opt/maxon/Commandline"; "-renderer"; "Redshift"; "-render"; "/shots/s.c4d";
         "-oimage"; "/renders/frame_"; "-ofmt"; "tif"; "-ores"; "1280"; "720";
         "-frame"; "10"; "20"; "-threads"; "8"; "--foo"; "bar baz" ].
Proof.
  apply (display_splits_back "linux" full_config); [reflexivity | vm_compute; reflexivity].
Defined.

(** ** [guess_c4d_command] *)

Lemma guess_c4d_command_find (p : string) (ex : string -> bool) :
  guess_c4d_command p ex
  = match List.find ex (candidates_on p) with Some c => c | None => EmptyString end.
Proof.
  unfold guess_c4d_command, candidates_on.
  destruct (on_windows p); [reflexivity |].
  destruct (String.eqb p "darwin"); reflexivity.
Qed.

Lemma candidates_are_paths (p c : string) : In c (candidates_on p) -> Py.truthy c = true.
Proof.
  unfold candidates_on. destruct (on_windows p); [| destruct (String.eqb p "darwin")];
    simpl; intros H; repeat destruct H as [<- | H]; try reflexivity; destruct H.
Qed.

(** [find] returns the first element that passes the test. *)
Lemma find_first {A} (f : A -> bool) (l : list A) (x : A) :
  List.find f l = Some x ->
  exists before after,
    l = before ++ x :: after /\ f x = true /\ forall y, In y before -> f y = false.
Proof.
  induction l as [| a l IH]; simpl; [discriminate |].
  destruct (f a) eqn:Ha.
  - intros [= <-]. exists [], l. repeat split; [exact Ha |]. intros y [].
  - intros H. destruct (IH H) as (before & after & -> & Hx & Hbefore).
    exists (a :: before), after. repeat split; [exact Hx |].
    intros y [<- | Hy]; [exact Ha | apply Hbefore, Hy].
Qed.

(** X2. A path [guess_c4d_command] returns is one of the candidates of the
    platform, it exists, and no candidate listed before it exists: the
    newest installed version is the one found. *)
Theorem guess_is_first_existing (p : string) (ex : string -> bool) :
  Py.truthy (guess_c4d_command p ex) = true ->
  exists before after,
    candidates_on p = before ++ guess_c4d_command p ex :: after
    /\ ex (guess_c4d_command p ex) = true
    /\ forall c, In c before -> ex c = false.
Proof.
  rewrite guess_c4d_command_find.
  destruct (List.find ex (candidates_on p)) as [c |] eqn:Hfind; [| discriminate].
  intros _. apply find_first, Hfind.
Qed.

Lemma guess_is_first_existing_witness :
  exists before after,
    candidates_on "win32"
    = before
      ++ guess_c4d_command "win32"
           (String.eqb "C:\Program Files\Maxon Cinema 4D 2024\Commandline.exe") :: after
    /\ String.eqb "C:\Program Files\Maxon Cinema 4D 2024\Commandline.exe"
         (guess_c4d_command "win32"
            (String.eqb "C:\Program Files\Maxon Cinema 4D 2024\Commandline.exe")) = true
    /\ forall c, In c before ->
         String.eqb "C:\Program Files\Maxon Cinema 4D 2024\Commandline.exe" c = false.
Proof.
  apply (guess_is_first_existing "win32"
           (String.eqb "C:\Program Files\Maxon Cinema 4D 2024\Commandline.exe")).
  reflexivity.
Defined.

(** X3. [guess_c4d_command] returns the empty str exactly when no
    candidate of the platform exists; on a platform that is neither Windows
    nor macOS it has no candidate and returns the empty str whatever the
    file system holds. *)
Theorem guess_empty_iff_none_exists (p : string) (ex : string -> bool) :
  (guess_c4d_command p ex = EmptyString <-> forall c, In c (candidates_on p) -> ex c = false)
  /\ (on_windows p = false -> String.eqb p "darwin" = false ->
      guess_c4d_command p ex = EmptyString).
Proof.
  assert (Hiff : guess_c4d_command p ex = EmptyString
                 <-> forall c, In c (candidates_on p) -> ex c = false).
  { rewrite guess_c4d_command_find.
    destruct (List.find ex (candidates_on p)) as [c |] eqn:Hfind.
    - apply find_some in Hfind as [Hin Hex]. split.
      + intros ->. apply candidates_are_paths in Hin. discriminate.
      + intros Hnone. rewrite (Hnone c Hin) in Hex. discriminate.
    - split; [| reflexivity]. intros _. apply find_none, Hfind. }
  split; [exact Hiff |].
  intros Hwin Hmac. apply Hiff. unfold candidates_on. rewrite Hwin, Hmac. intros c [].
Qed.

Lemma guess_empty_iff_none_exists_witness :
  guess_c4d_command "linux" (fun _ => true) = EmptyString.
Proof.
  apply (proj2 (guess_empty_iff_none_exists "linux" (fun _ => true))); reflexivity.
Defined.

(** ** Presets with some of the keys *)

Lemma get_str_Some (d : gmap string value) (k s : string) :
  get_str d k = Some s -> d !! k = Some (VStr s).
Proof. unfold get_str. destruct (d !! k) as [[] |]; congruence. Qed.

Lemma get_bool_Some (d : gmap string value) (k : string) (b : bool) :
  get_bool d k = Some b -> d !! k = Some (VBool b).
Proof. unfold get_bool. destruct (d !! k) as [[] |]; congruence. Qed.

Lemma get_int_Some (d : gmap string value) (k : string) (n : Z) :
  get_int d k = Some n -> d !! k = Some (VInt n).
Proof. unfold get_int. destruct (d !! k) as [[] |]; congruence. Qed.

Lemma get_float_Some (d : gmap string value) (k : string) (x : float) :
  get_float d k = Some x -> d !! k = Some (VFloat x).
Proof. unfold get_float. destruct (d !! k) as [[] |]; congruence. Qed.

(** The attributes of the instance read from a dict are entries of it. *)
Lemma of_vars_entries (d : gmap string value) (cfg : RenderConfig) :
  of_vars d = Some cfg -> forall k v, vars cfg !! k = Some v -> d !! k = Some v.
Proof.
  unfold of_vars. intros H.
  repeat match type of H with
  | (?o ≫= _) = Some _ => destruct o eqn:?; simpl in H; [| discriminate H]
  end.
  injection H as <-. intros k v Hk. unfold vars in Hk.
  apply elem_of_list_to_map_2 in Hk. simpl in Hk.
  repeat (apply elem_of_cons in Hk as [[= -> ->] | Hk];
          [eauto using get_str_Some, get_bool_Some, get_int_Some, get_float_Some |]).
  apply elem_of_nil in Hk. destruct Hk.
Qed.

(** X4. In the instance [from_dict] builds from a preset, an attribute has
    the value the preset gives it, and the default of [RenderConfig()] when
    the preset has no entry for it: a preset with some of the keys changes
    those and leaves the others at their defaults. *)
Theorem from_dict_keeps_defaults (p : string) (ex : string -> bool)
    (d : gmap string value) (cfg : RenderConfig) (k : string) (dflt : value) :
  from_dict p ex d = Some cfg ->
  to_dict (RenderConfig_init p ex) !! k = Some dflt ->
  to_dict cfg !! k = Some (default dflt (d !! k)).
Proof.
  unfold from_dict, to_dict. intros H Hdflt.
  assert (Hk : k ∈ dom (vars cfg)).
  { rewrite (dom_vars cfg (RenderConfig_init p ex)). apply elem_of_dom. eauto. }
  apply elem_of_dom in Hk as [v Hv]. rewrite Hv.
  apply (of_vars_entries _ _ H) in Hv.
  apply lookup_union_Some_raw in Hv as [Hd | [Hd Hinit]].
  - rewrite Hd. reflexivity.
  - rewrite Hd. simpl. congruence.
Qed.

Lemma from_dict_keeps_defaults_witness :
  to_dict (set_paths "/s.c4d" EmptyString (RenderConfig_init "linux" (fun _ => false)))
    !! "fps"
  = Some (default (VInt 25)
            (({[ "scene_path" := VStr "/s.c4d" ]} : gmap string value) !! "fps")).
Proof.
  apply (from_dict_keeps_defaults "linux" (fun _ => false)
           {[ "scene_path" := VStr "/s.c4d" ]}); vm_compute; reflexivity.
Defined.

(** ** What [build_command] does not check *)

Lemma frame_range_checked (c c' : RenderConfig) :
  same_checked_fields c c' -> Spec.frame_range c = Spec.frame_range c'.
Proof.
  intros (_ & _ & Hmode & Hdur & Hfps & Hstart & Hend & _).
  unfold Spec.frame_range. rewrite Hmode, Hdur, Hfps, Hstart, Hend. reflexivity.
Qed.

Lemma extra_tokens_checked (p : string) (c c' : RenderConfig) :
  same_checked_fields c c' -> Spec.extra_tokens p c = Spec.extra_tokens p c'.
Proof.
  intros (_ & _ & _ & _ & _ & _ & _ & Hextra & _).
  unfold Spec.extra_tokens. rewrite Hextra. reflexivity.
Qed.

Lemma range_prints_checked (c c' : RenderConfig) (range : Z * Z) :
  same_checked_fields c c' -> Spec.range_prints c range = Spec.range_prints c' range.
Proof.
  intros (_ & _ & _ & _ & _ & _ & _ & _ & _ & Hthreads).
  unfold Spec.range_prints. rewrite Hthreads. reflexivity.
Qed.

(** X5. Whether [build_command] builds a config, and the exception it
    raises when it does not, depend only on the two paths, the frame-range
    fields, the extra arguments, and on whether the resolution it emits and
    the thread count can be written out: no value of the executable, the
    renderer, the format or the base name, and no resolution or thread
    count within the limit on digits (a negative one, say), makes it reject
    a config. *)
Theorem build_command_checks_only (p : string) (c c' : RenderConfig) :
  same_checked_fields c c' ->
  match build_command p c, build_command p c' with
  | Ok _, Ok _ => True
  | Raise e, Raise e' => e = e'
  | _, _ => False
  end.
Proof.
  intros Hsame. rewrite !build_command_steps. unfold Spec.command.
  rewrite (frame_range_checked c c' Hsame), (extra_tokens_checked p c c' Hsame).
  pose proof (fun range => range_prints_checked c c' range Hsame) as Hprints.
  destruct Hsame as (<- & <- & _ & _ & _ & _ & _ & _ & <- & _).
  destruct (Py.truthy (scene_path c)); simpl; [| reflexivity].
  destruct (Py.truthy (output_dir c)); simpl; [| reflexivity].
  destruct (Spec.resolution_prints c); simpl; [| reflexivity].
  destruct (Spec.frame_range c') as [range |]; simpl; [| reflexivity].
  rewrite Hprints.
  destruct (Spec.range_prints c' range); simpl; [| reflexivity].
  destruct (Spec.extra_tokens p c'); simpl; [exact I | reflexivity].
Qed.

Lemma build_command_checks_only_witness :
  match build_command "linux" (set_extra_args dquote full_config),
        build_command "linux"
          (set_threads (-3) (set_c4d_cmd EmptyString (set_extra_args dquote full_config))) with
  | Ok _, Ok _ => True
  | Raise e, Raise e' => e = e'
  | _, _ => False
  end.
Proof.
  apply (build_command_checks_only "linux" (set_extra_args dquote full_config)
           (set_threads (-3) (set_c4d_cmd EmptyString (set_extra_args dquote full_config)))).
  unfold same_checked_fields. repeat split; vm_compute; reflexivity.
Defined.

(** ** The form: [sync_cfg] and [_apply_cfg_to_ui] *)

Lemma or_else_stripped (s default : string) :
  Py.strip default = default ->
  Py.strip (Py.or_else (Py.strip s) default) = Py.or_else (Py.strip s) default.
Proof.
  intros Hd. unfold Py.or_else. destruct (Py.truthy (Py.strip s)); [apply strip_idem | exact Hd].
Qed.

Lemma or_else_truthy (s default : string) :
  Py.truthy default = true -> Py.truthy (Py.or_else s default) = true.
Proof. intros Hd. unfold Py.or_else. destruct (Py.truthy s) eqn:Hs; [exact Hs | exact Hd]. Qed.

Lemma or_else_of_truthy (s default : string) : Py.truthy s = true -> Py.or_else s default = s.
Proof. intros Hs. unfold Py.or_else. rewrite Hs. reflexivity. Qed.

Lemma int_or_nonzero (n default : Z) : default <> 0 -> int_or n default <> 0.
Proof. unfold int_or. destruct (n =? 0) eqn:Hn; [auto | intros _; apply Z.eqb_neq, Hn]. Qed.

Lemma int_or_of_nonzero (n default : Z) : n <> 0 -> int_or n default = n.
Proof. intros Hn. unfold int_or. apply Z.eqb_neq in Hn. rewrite Hn. reflexivity. Qed.

(** [sync_cfg] writes the config and nothing else of the state. *)
Lemma sync_cfg_state (self : App) :
  (sync_cfg self).1 = set_cfg (self_cfg (sync_cfg self).1) self.
Proof.
  unfold sync_cfg, get_or_raise.
  destruct (res_w_var _); [| reflexivity].
  destruct (res_h_var _); [| reflexivity].
  destruct (duration_var _); [| reflexivity].
  destruct (fps_var _); [| reflexivity].
  destruct (start_var _); [| reflexivity].
  destruct (end_var _); [| reflexivity].
  destruct (threads_var _); reflexivity.
Qed.

(** [sync_cfg] raises what the first numeric variable that cannot be read
    raises. When all can be read it returns the config it has written:
    the text fields are those of the form, stripped, and the config is
    normalized. *)
Lemma sync_cfg_result (self : App) :
  match first_unreadable self.(self_vars) with
  | Some e => (sync_cfg self).2 = Raise e
  | None =>
      exists c,
        (sync_cfg self).2 = Ok c
        /\ self_cfg (sync_cfg self).1 = c
        /\ scene_path c = Py.strip self.(self_vars).(scene_var)
        /\ output_dir c = Py.strip self.(self_vars).(outdir_var)
        /\ normalized c
  end.
Proof.
  unfold first_unreadable, sync_cfg, get_or_raise.
  destruct (res_w_var _); [| reflexivity].
  destruct (res_h_var _); [| reflexivity].
  destruct (duration_var _); [| reflexivity].
  destruct (fps_var _); [| reflexivity].
  destruct (start_var _); [| reflexivity].
  destruct (end_var _); [| reflexivity].
  destruct (threads_var _); [| reflexivity].
  cbn. eexists. split; [reflexivity |]. split; [reflexivity |].
  split; [reflexivity |]. split; [reflexivity |].
  unfold normalized. cbn [c4d_cmd scene_path output_dir base_name format renderer fps].
  repeat split; try apply strip_idem.
  - apply or_else_stripped. reflexivity.
  - apply or_else_stripped. reflexivity.
  - apply or_else_truthy. reflexivity.
  - apply or_else_truthy. reflexivity.
  - apply int_or_nonzero. discriminate.
Qed.

(** X6. [sync_cfg] returns a config exactly when every numeric variable of
    the form can be read, and whatever the form holds then, the config is
    normalized: the executable, the two paths, the base name, the format
    and the renderer carry no white space at either end, the base name and
    the renderer are not empty ([frame_] and [Redshift] stand in for blank
    fields), and the frame rate is not zero (25 stands in for 0). *)
Theorem sync_cfg_normalized (self : App) :
  (first_unreadable self.(self_vars) = None <-> exists c, (sync_cfg self).2 = Ok c)
  /\ forall c, (sync_cfg self).2 = Ok c -> normalized c.
Proof.
  pose proof (sync_cfg_result self) as H.
  destruct (first_unreadable (self_vars self)) as [e |].
  - rewrite H. split; [split; [discriminate | intros [c [=]]] | discriminate].
  - destruct H as (c & Hc & _ & _ & _ & Hnorm). rewrite Hc. split.
    + split; eauto.
    + intros c' [= <-]. exact Hnorm.
Qed.

Lemma sync_cfg_normalized_witness :
  exists c,
    (sync_cfg (set_vars filled_form (App_init "linux" (fun _ => false)))).2 = Ok c
    /\ normalized c.
Proof.
  destruct (sync_cfg_normalized (set_vars filled_form (App_init "linux" (fun _ => false))))
    as [Hiff Hnorm].
  destruct (proj1 Hiff) as [c Hc]; [reflexivity |].
  exists c. split; [exact Hc | exact (Hnorm c Hc)].
Defined.

(** X7. A normalized config written to the form by [_apply_cfg_to_ui] and
    read back by [sync_cfg] is the same config: loading a preset that was
    saved from the form and syncing changes no field. *)
Theorem normalized_config_survives_form (self : App) :
  normalized self.(self_cfg) ->
  (sync_cfg (_apply_cfg_to_ui self)).2 = Ok self.(self_cfg).
Proof.
  destruct self as [c v preview log btn boxes]. destruct c.
  unfold normalized. cbn.
  intros (Hexe & Hscene & Hout & Hbase & Hformat & Hrenderer & Tbase & Trenderer & Hfps).
  rewrite Hexe, Hscene, Hout, Hbase, Hformat, Hrenderer.
  rewrite (or_else_of_truthy _ _ Tbase), (or_else_of_truthy _ _ Trenderer).
  rewrite !(int_or_of_nonzero _ _ Hfps). reflexivity.
Qed.

Lemma normalized_config_survives_form_witness :
  (sync_cfg (_apply_cfg_to_ui (sync_cfg (set_vars filled_form (App_init "linux" (fun _ => false)))).1)).2
  = Ok (self_cfg (sync_cfg (set_vars filled_form (App_init "linux" (fun _ => false)))).1).
Proof.
  apply (normalized_config_survives_form
           (sync_cfg (set_vars filled_form (App_init "linux" (fun _ => false)))).1).
  unfold normalized. vm_compute. repeat split; discriminate.
Defined.

(** ** The handlers [on_preview] and [on_run] *)

(** X8. When the scene field or the output folder field of the form is
    blank (empty, or white space only), [on_preview] shows one error box
    and leaves the preview as it was. The box holds what the first numeric
    field that cannot be read raises, if there is one; otherwise the
    message of the scene path when the scene field is blank, and the one of
    the output directory when only the output folder field is. *)
Theorem on_preview_requires_paths (p : string) (self : App) :
  Py.any Py.nonspace self.(self_vars).(scene_var) = false
  \/ Py.any Py.nonspace self.(self_vars).(outdir_var) = false ->
  dialogs (on_preview p self)
  = dialogs self
    ++ [showerror "Build Error"
          match first_unreadable self.(self_vars) with
          | Some e => exn_str e
          | None =>
              if Py.any Py.nonspace self.(self_vars).(scene_var)
              then "Output directory is required."
              else "Scene path is required."
          end]
  /\ self_cmd_preview (on_preview p self) = self_cmd_preview self.
Proof.
  intros H.
  assert (Hblank : forall s, Py.any Py.nonspace s = false -> Py.strip s = EmptyString).
  { intros s Hs. rewrite <- truthy_strip in Hs. destruct (Py.strip s); [reflexivity | discriminate]. }
  pose proof (sync_cfg_result self) as Hsync.
  pose proof (sync_cfg_state self) as Hstate.
  unfold on_preview. destruct (sync_cfg self) as [self' synced]. cbn [fst snd] in Hsync, Hstate.
  destruct (first_unreadable (self_vars self)) as [e |].
  - rewrite Hsync, Hstate. split; reflexivity.
  - destruct Hsync as (c & -> & _ & Hscene & Hout & _). simpl.
    rewrite (build_command_requires_paths p c).
    + rewrite Hscene, truthy_strip, Hstate. split; reflexivity.
    + rewrite Hscene, Hout. destruct H as [H | H]; [left | right]; apply Hblank, H.
Qed.

Lemma on_preview_requires_paths_witness :
  dialogs (on_preview "linux" (App_init "linux" (fun _ => false)))
  = [] ++ [showerror "Build Error" "Scene path is required."]
  /\ self_cmd_preview (on_preview "linux" (App_init "linux" (fun _ => false))) = EmptyString.
Proof.
  apply (on_preview_requires_paths "linux" (App_init "linux" (fun _ => false))).
  left. reflexivity.
Defined.

Section Run.

Variable sys_platform : string.
Variable os_makedirs : string -> option string.
Variable Popen : list string -> Popen_result.
Variable STARTING_RENDER : string.

Let run := on_run sys_platform os_makedirs Popen STARTING_RENDER.

(** The output sink adds each line to the log and touches nothing else. *)
Lemma lines_go_to_log (lines : list string) (self : App) :
  fold_left (fun s line => on_output line s) lines self
  = append_log (String.concat EmptyString lines) self.
Proof.
  revert self. induction lines as [| line lines IH]; intros self.
  - destruct self. unfold append_log. cbn. rewrite append_nil_r. reflexivity.
  - cbn [fold_left]. rewrite IH. destruct self. unfold on_output, append_log. cbn.
    rewrite append_assoc. destruct lines; [rewrite append_nil_r |]; reflexivity.
Qed.

(** [on_done] adds the verdict to the log, and sets the button to normal
    when it gets to its end. *)
Lemma on_done_verdict (code : Z) (self : App) :
  self_log (on_done code self) = self_log self +:+ verdict code
  /\ self_run_btn (on_done code self)
     = (if (code =? 0) || Py.printable code then true else self_run_btn self)
  /\ self_cmd_preview (on_done code self) = self_cmd_preview self.
Proof.
  unfold on_done, verdict, Py.str.
  destruct (code =? 0); [repeat split |].
  destruct (Py.printable code); repeat split.
  cbn. rewrite append_nil_r. reflexivity.
Qed.

(** A run that is started: the config is read, the command built and the
    output folder made. *)
Lemma on_run_started (self : App) (cfg : RenderConfig) (cmd : list string) (pretty : string) :
  (sync_cfg self).2 = Ok cfg ->
  build_command sys_platform cfg = Ok (cmd, pretty) ->
  os_makedirs cfg.(output_dir) = None ->
  run self
  = run_command_async Popen on_output on_done cmd
      (append_log STARTING_RENDER
         (config_run_btn false
            (clear_log (set_cmd_preview (pretty +:+ newline) (sync_cfg self).1)))).
Proof.
  intros Hsync Hbuild Hdirs. unfold run, on_run.
  destruct (sync_cfg self) as [self' synced]. cbn [fst snd] in Hsync |- *.
  rewrite Hsync. simpl. rewrite Hbuild. simpl. rewrite Hdirs. reflexivity.
Qed.

(** A run that is not started leaves the button as it is. *)
Lemma on_run_not_started (self : App) :
  (forall cfg cmd pretty,
     (sync_cfg self).2 = Ok cfg ->
     build_command sys_platform cfg = Ok (cmd, pretty) ->
     os_makedirs cfg.(output_dir) <> None) ->
  self_run_btn (run self) = self_run_btn self.
Proof.
  intros Hnot. pose proof (sync_cfg_state self) as Hstate.
  unfold run, on_run. destruct (sync_cfg self) as [self' synced]. cbn [fst snd] in Hnot, Hstate.
  assert (Hbtn : self_run_btn self' = self_run_btn self) by (rewrite Hstate; reflexivity).
  destruct synced as [cfg | e]; simpl; [| exact Hbtn].
  destruct (build_command sys_platform cfg) as [[cmd pretty] | e] eqn:Hbuild; simpl;
    [| exact Hbtn].
  destruct (os_makedirs (output_dir cfg)) eqn:Hdirs; [exact Hbtn |].
  exfalso. exact (Hnot cfg cmd pretty eq_refl Hbuild Hdirs).
Qed.

(** X9. If the run button is enabled when [on_run] is called, it is enabled
    again when the run is over, with one exception. After a build error,
    an output folder that cannot be made, a renderer that cannot be
    launched, or a render whose output is read to its end, it is enabled.
    It stays disabled exactly when the render was started and the worker
    did not get to the end of [on_done]: the read of the output raised (or
    the exit code could not be written out). *)
Theorem on_run_reenables_button (self : App) :
  self.(self_run_btn) = true ->
  self_run_btn (run self) = false
  <-> exists cfg cmd pretty,
        (sync_cfg self).2 = Ok cfg
        /\ build_command sys_platform cfg = Ok (cmd, pretty)
        /\ os_makedirs cfg.(output_dir) = None
        /\ reports_end (Popen cmd) = false.
Proof.
  intros Hbtn.
  assert (Hstarted : forall cfg cmd pretty,
    (sync_cfg self).2 = Ok cfg ->
    build_command sys_platform cfg = Ok (cmd, pretty) ->
    os_makedirs cfg.(output_dir) = None ->
    self_run_btn (run self) = reports_end (Popen cmd)).
  { intros cfg cmd pretty Hsync Hbuild Hdirs.
    rewrite (on_run_started self cfg cmd pretty Hsync Hbuild Hdirs).
    unfold run_command_async, worker, reports_end.
    destruct (Popen cmd) as [| e | stdout [code |]].
    - reflexivity.
    - reflexivity.
    - rewrite lines_go_to_log.
      rewrite (proj1 (proj2 (on_done_verdict code _))).
      destruct (code =? 0) eqn:Hcode; [| destruct (Py.printable code); reflexivity].
      apply Z.eqb_eq in Hcode as ->. reflexivity.
    - rewrite lines_go_to_log. reflexivity. }
  split.
  - intros Hoff.
    destruct (sync_cfg self).2 as [cfg |] eqn:Hsync.
    + destruct (build_command sys_platform cfg) as [[cmd pretty] |] eqn:Hbuild.
      * destruct (os_makedirs (output_dir cfg)) eqn:Hdirs.
        -- rewrite on_run_not_started in Hoff; [congruence |].
           intros cfg' cmd' pretty' Hsync' _. rewrite Hsync in Hsync'.
           injection Hsync' as <-. rewrite Hdirs. discriminate.
        -- exists cfg, cmd, pretty. repeat split; try assumption.
           rewrite <- (Hstarted cfg cmd pretty eq_refl Hbuild Hdirs). exact Hoff.
      * rewrite on_run_not_started in Hoff; [congruence |].
        intros cfg' cmd' pretty' Hsync'. rewrite Hsync in Hsync'.
        injection Hsync' as <-. rewrite Hbuild. discriminate.
    + rewrite on_run_not_started in Hoff; [congruence |].
      intros cfg cmd pretty Hsync'. rewrite Hsync in Hsync'. discriminate.
  - intros (cfg & cmd & pretty & Hsync & Hbuild & Hdirs & Hend).
    rewrite (Hstarted cfg cmd pretty Hsync Hbuild Hdirs). exact Hend.
Qed.

(** X10. When the form is read, the command built and the output folder
    made, [on_run] shows the command in the preview and, once the run is
    over, the log holds the starting line, then what the process wrote, in
    order, then the verdict: success exactly for exit code 0. When the
    renderer cannot be launched the log holds the starting line, one error
    line and the verdict of failure with code 1. When the read of the
    output raises, the log ends with the lines read before, without a
    verdict. What the log held before is gone. *)
Theorem on_run_log (self : App) (cfg : RenderConfig) (cmd : list string) (pretty : string) :
  (sync_cfg self).2 = Ok cfg ->
  build_command sys_platform cfg = Ok (cmd, pretty) ->
  os_makedirs cfg.(output_dir) = None ->
  self_cmd_preview (run self) = pretty +:+ newline
  /\ self_log (run self)
     = STARTING_RENDER
       +:+ match Popen cmd with
           | raises_FileNotFoundError =>
               ("ERROR: Commandline executable not found." +:+ newline) +:+ verdict 1
           | raises_Exception e => ("ERROR: " +:+ e +:+ newline) +:+ verdict 1
           | started stdout (exits code) => String.concat EmptyString stdout +:+ verdict code
           | started stdout read_raises => String.concat EmptyString stdout
           end.
Proof.
  intros Hsync Hbuild Hdirs.
  rewrite (on_run_started self cfg cmd pretty Hsync Hbuild Hdirs).
  unfold run_command_async, worker.
  assert (Hdone : forall code text s,
    self_cmd_preview s = pretty +:+ newline ->
    self_log s = STARTING_RENDER ->
    self_cmd_preview (on_done code (append_log text s)) = pretty +:+ newline
    /\ self_log (on_done code (append_log text s))
       = STARTING_RENDER +:+ (text +:+ verdict code)).
  { intros code text s Hpreview Hlog.
    destruct (on_done_verdict code (append_log text s)) as (-> & _ & ->).
    split; [exact Hpreview |]. cbn [self_log append_log]. rewrite Hlog.
    apply append_assoc. }
  destruct (Popen cmd) as [| e | stdout [code |]].
  - apply Hdone; reflexivity.
  - apply Hdone; reflexivity.
  - rewrite lines_go_to_log. apply Hdone; reflexivity.
  - rewrite lines_go_to_log. split; reflexivity.
Qed.

End Run.

Lemma on_run_reenables_button_witness :
  self_run_btn
    (on_run "linux" (fun _ => None) (fun _ => started ["frame 0"; "frame 1"] read_raises)
       "Starting" (set_vars filled_form (App_init "linux" (fun _ => false)))) = false.
Proof.
  apply (on_run_reenables_button "linux" (fun _ => None)
           (fun _ => started ["frame 0"; "frame 1"] read_raises) "Starting"
           (set_vars filled_form (App_init "linux" (fun _ => false)))).
  - reflexivity.
  - eexists. eexists. eexists. split; [reflexivity |].
    split; [vm_compute; reflexivity |]. split; reflexivity.
Defined.

Lemma on_run_log_witness :
  self_cmd_preview
    (on_run "linux" (fun _ => None) (fun _ => started ["frame 0"; "frame 1"] (exits 3))
       "Starting" (set_vars filled_form (App_init "linux" (fun _ => false))))
  = ("/opt/maxon/Commandline -renderer Redshift -render /shots/s.c4d -oimage /renders/frame_ "
     +:+ "-ofmt exr -frame 0 50 -threads 0") +:+ newline
  /\ self_log
       (on_run "linux" (fun _ => None) (fun _ => started ["frame 0"; "frame 1"] (exits 3))
          "Starting" (set_vars filled_form (App_init "linux" (fun _ => false))))
     = "Starting" +:+ (String.concat EmptyString ["frame 0"; "frame 1"] +:+ verdict 3).
Proof.
  apply (on_run_log "linux" (fun _ => None)
           (fun _ => started ["frame 0"; "frame 1"] (exits 3))
           "Starting" (set_vars filled_form (App_init "linux" (fun _ => false)))
           (self_cfg (sync_cfg (set_vars filled_form (App_init "linux" (fun _ => false)))).1)
           [ "/opt/maxon/Commandline"; "-renderer"; "Redshift"; "-render"; "/shots/s.c4d";
             "-oimage"; "/renders/frame_"; "-ofmt"; "exr"; "-frame"; "0"; "50";
             "-threads"; "0" ]);
    vm_compute; reflexivity.
Defined.

(** ** The display string on Windows *)

Lemma lexer_space_isspace (c : ascii) :
  Py.isspace c = false -> Py.char_in c shlex.whitespace = false.
Proof.
  destruct c as [[] [] [] [] [] [] [] []]; vm_compute; intros H;
    first [discriminate H | reflexivity].
Qed.

Section WindowsLexer.

Let R := shlex.read_tokens false.

(** Outside POSIX mode a word goes on until white space. *)
Lemma win_word_continues (w : string) (esc : shlex.lexstate) (q : bool) (tok : string)
    (rest : list ascii) :
  Py.any Py.isspace w = false ->
  R shlex.in_word esc q tok (chars w ++ rest) = R shlex.in_word esc q (tok +:+ w) rest.
Proof.
  revert tok. induction w as [| c w IH]; intros tok Hw; simpl.
  - rewrite append_nil_r. reflexivity.
  - simpl in Hw. apply orb_false_iff in Hw as [Hc Hw].
    apply lexer_space_isspace in Hc.
    unfold R. cbn [shlex.read_tokens]. rewrite Hc. cbn [andb].
    fold R. rewrite (IH _ Hw), append_assoc. reflexivity.
Qed.

(** Between double quotes every character but the double quote is taken as
    it is; the closing quote is kept and ends the token. *)
Lemma win_quoted_body (s : string) (esc : shlex.lexstate) (q : bool) (tok : string)
    (rest : list ascii) :
  Py.any (fun c => Py.char_in c shlex.quotes) s = false ->
  R (shlex.in_quote "034") esc q tok (chars s ++ "034"%char :: rest)
  = toks ← R shlex.in_space shlex.in_space false EmptyString rest;
    Ok ((tok +:+ s +:+ dquote) :: toks).
Proof.
  revert q tok. induction s as [| c s IH]; intros q tok Hs.
  - unfold R. cbn [list_ascii_of_string app shlex.read_tokens].
    change (Ascii.eqb "034" "034") with true. cbv iota.
    unfold shlex.emit. destruct tok; reflexivity.
  - simpl in Hs. apply orb_false_iff in Hs as [Hc Hs].
    assert (Hne : Ascii.eqb c "034" = false).
    { destruct (Ascii.eqb c "034") eqn:E; [| reflexivity].
      apply Ascii.eqb_eq in E as ->. discriminate Hc. }
    unfold R. cbn [list_ascii_of_string app shlex.read_tokens]. rewrite Hne. cbn [andb].
    fold R. rewrite (IH _ _ Hs), append_assoc. reflexivity.
Qed.

(** From the start of a token, what [quote_win] writes for [s] is read as
    one token, up to the end of the input or the space after it. *)
Lemma win_token_is_read (s : string) (rest : list ascii) :
  win_token s = true ->
  rest = [] \/ (exists rest', rest = " "%char :: rest') ->
  R shlex.in_space shlex.in_space false EmptyString (chars (quote_win s) ++ rest)
  = toks ← R shlex.in_space shlex.in_space false EmptyString (tl rest);
    Ok (quote_win s :: toks).
Proof.
  unfold win_token. intros Hs Hrest. apply andb_true_iff in Hs as [Hne Hq].
  apply negb_true_iff in Hq. unfold quote_win.
  destruct (Py.any Py.isspace s || Py.char_in "\" s) eqn:Hwrap.
  - rewrite !chars_app, <- !app_assoc.
    change (chars dquote ++ chars s ++ chars dquote ++ rest)
      with ("034"%char :: chars s ++ "034"%char :: rest).
    change (R shlex.in_space shlex.in_space false EmptyString
              ("034"%char :: chars s ++ "034"%char :: rest))
      with (R (shlex.in_quote "034") shlex.in_space false dquote
              (chars s ++ "034"%char :: rest)).
    rewrite (win_quoted_body _ _ _ _ _ Hq).
    destruct Hrest as [-> | [rest' ->]]; reflexivity.
  - apply orb_false_iff in Hwrap as [Hsp _].
    destruct s as [| c s]; [discriminate Hne |].
    pose proof Hsp as Hc. cbn [Py.any] in Hc. apply orb_false_iff in Hc as [Hc Hs].
    apply lexer_space_isspace in Hc.
    cbn [Py.any] in Hq. apply orb_false_iff in Hq as [Hcq _].
    cbn [list_ascii_of_string app]. unfold R. cbn [shlex.read_tokens].
    rewrite Hc, Hcq. cbn [andb].
    replace (if shlex.in_wordchars false c
             then shlex.read_tokens false shlex.in_word shlex.in_space false (String c "")
                    (chars s ++ rest)
             else shlex.read_tokens false shlex.in_word shlex.in_space false (String c "")
                    (chars s ++ rest))
      with (R shlex.in_word shlex.in_space false (String c "") (chars s ++ rest))
      by (destruct (shlex.in_wordchars false c); reflexivity).
    rewrite (win_word_continues s _ _ _ _ Hs).
    destruct Hrest as [-> | [rest' ->]]; reflexivity.
Qed.

Lemma win_tokens_split (l : list string) :
  forallb win_token l = true ->
  shlex.split (Py.str_join " " (map quote_win l)) false = Ok (map quote_win l).
Proof.
  unfold shlex.split. fold R. induction l as [| x l IH]; [reflexivity |].
  cbn [forallb]. intros H. apply andb_true_iff in H as [Hx Hl].
  destruct l as [| y l].
  - cbn [map Py.str_join String.concat].
    rewrite <- (app_nil_r (chars (quote_win x))).
    rewrite (win_token_is_read x [] Hx); [reflexivity | left; reflexivity].
  - change (Py.str_join " " (map quote_win (x :: y :: l)))
      with (quote_win x +:+ " " +:+ Py.str_join " " (map quote_win (y :: l))).
    rewrite chars_app.
    change (chars (" " +:+ Py.str_join " " (map quote_win (y :: l))))
      with (" "%char :: chars (Py.str_join " " (map quote_win (y :: l)))).
    rewrite (win_token_is_read x _ Hx); [| right; eauto].
    cbn [tl]. rewrite (IH Hl). reflexivity.
Qed.

End WindowsLexer.

(** X12. On Windows, when no token of a built command is empty or holds a
    quote character, the display string split by [shlex.split] outside
    POSIX mode gives one token for each token of the command: the token
    itself, kept between double quotes where [quote_win] wrapped it. *)
Theorem windows_display_splits (p : string) (cfg : RenderConfig)
    (cmd : list string) (pretty : string) :
  on_windows p = true ->
  build_command p cfg = Ok (cmd, pretty) ->
  forallb win_token cmd = true ->
  shlex.split pretty false = Ok (map quote_win cmd).
Proof.
  intros Hwin H Htokens.
  apply build_command_Ok_inv in H as (_ & _ & _ & range & extra & _ & _ & _ & _ & ->).
  unfold Spec.display. rewrite Hwin. cbn [negb].
  apply win_tokens_split, Htokens.
Qed.

Lemma windows_display_splits_witness :
  shlex.split
    (Spec.display "win32"
       [ "C:\Program Files\c4d.exe"; "-renderer"; "Redshift"; "-render"; "/s.c4d";
         "-oimage"; "/out\f_"; "-ofmt"; "exr"; "-frame"; "0"; "50"; "-threads"; "0" ]) false
  = Ok (map quote_win
          [ "C:\Program Files\c4d.exe"; "-renderer"; "Redshift"; "-render"; "/s.c4d";
            "-oimage"; "/out\f_"; "-ofmt"; "exr"; "-frame"; "0"; "50"; "-threads"; "0" ]).
Proof.
  apply (windows_display_splits "win32" (example_config "C:\Program Files\c4d.exe"));
    vm_compute; reflexivity.
Defined.
